(** * Aline-Admin: the entity forms, the colour row action and the navigation menu

    A shallow embedding of the client components of the admin dashboard:

    - [ProductForm]  (product create/edit form: schema, labels, submit, delete),
    - [CategoryForm] (category create/edit form),
    - [CellAction]   (row action of the colour table: delete),
    - [MainNav]      (the navigation menu and its active flags).

    The handlers are asynchronous JavaScript functions of the shape
    [try { ... await axios... } catch { ... } finally { ... }].  They are
    embedded in a small monad of resumable computations with exceptions over
    a [World] that holds the React state of the component ([open],
    [loading]), the state kept by the form library ([values], [errors]) and
    the trace of the effects issued so far (HTTP requests, router calls,
    toasts).  A handler started in a world runs up to its [await] and is
    resumed when the request settles; [run] plays a handler to its end
    against a server, and a [Session] interleaves handlers with user
    events. *)

From Stdlib Require Import String Ascii List Bool QArith Lia FinFun.
Import ListNotations.
Open Scope string_scope.

(** ** JavaScript numbers and the [Number(...)] coercion *)

Module Js.

(** An IEEE double is a NaN, an infinity, or a finite (dyadic) rational.
    Only comparisons are used below, and these are exact. *)
Inductive number : Type :=
| NaN
| NegInfinity
| Finite (q : Q)
| Infinity.

(** The values a form field can hold at run time. *)
Inductive value : Type :=
| VUndefined
| VNull
| VBoolean (b : bool)
| VNumber (n : number)
| VString (s : string).

(** [a < b] on numbers; every comparison with NaN is false. *)
Definition lt (a b : number) : bool :=
  match a, b with
  | NaN, _ | _, NaN => false
  | NegInfinity, NegInfinity => false
  | NegInfinity, _ => true
  | _, NegInfinity => false
  | Infinity, _ => false
  | Finite _, Infinity => true
  | Finite x, Finite y => negb (Qle_bool y x)
  end.

Definition isNaN (n : number) : bool :=
  match n with NaN => true | _ => false end.

(** [a <= b] on numbers. *)
Definition le (a b : number) : bool :=
  match a, b with
  | NaN, _ | _, NaN => false
  | NegInfinity, _ => true
  | _, Infinity => true
  | Finite x, Finite y => Qle_bool x y
  | _, _ => false
  end.

Section Coercion.

(** [StringToNumber] is the language's string-to-number conversion
    (trimming, decimal and hexadecimal literals, rounding to the nearest
    double); it is kept abstract. *)
Variable StringToNumber : string -> number.

(** [Number(v)] *)
Definition Number (v : value) : number :=
  match v with
  | VUndefined => NaN
  | VNull => Finite 0
  | VBoolean true => Finite 1
  | VBoolean false => Finite 0
  | VNumber n => n
  | VString s => StringToNumber s
  end.

End Coercion.

End Js.

(** ** The schema combinators used by the forms (zod) *)

Module Zod.

Inductive issue : Type :=
| invalid_type
| too_small.

(** A field error as the resolver reports it: the field's path and the
    issue found there. *)
Definition FieldError : Type := (string * issue)%type.

(** [z.string()] on a value that is a string: no issue. *)
Definition string_ (s : string) : list issue := [].

(** [z.string().min(n)] *)
Definition string_min (n : nat) (s : string) : list issue :=
  if Nat.leb n (String.length s) then [] else [too_small].

(** [z.coerce.number().min(m)] on the already coerced number [x]: a NaN is
    not a number; the inclusive minimum rejects [x < m]. *)
Definition number_min (m : Q) (x : Js.number) : list issue :=
  if Js.isNaN x then [invalid_type]
  else if Js.lt x (Js.Finite m) then [too_small]
  else [].

(** [schema.array()]: the issues of the elements, in order, and no
    constraint on the length. *)
Definition array {A : Type} (element : A -> list issue) (xs : list A) : list issue :=
  flat_map element xs.

(** The issues of one key of a [z.object]. *)
Definition at_key (key : string) (issues : list issue) : list FieldError :=
  map (fun i => (key, i)) issues.

(** The issues reported at one key: what the form shows under that field. *)
Definition field_errors (key : string) (es : list FieldError) : list issue :=
  flat_map (fun e => if (fst e =? key)%string then [snd e] else []) es.

End Zod.

(** ** The world the handlers run in *)

Inductive Method : Type := POST | PATCH | DELETE.

Record Request (B : Type) : Type := mkRequest
  { method : Method;
    url : string;
    body : option B }.
Arguments mkRequest {B} _ _ _.
Arguments method {B} _.
Arguments url {B} _.
Arguments body {B} _.

Inductive Effect (B : Type) : Type :=
| Http (r : Request B)
| RouterRefresh
| RouterPush (href : string)
| ToastSuccess (message : string)
| ToastError (message : string).
Arguments Http {B} _.
Arguments RouterRefresh {B}.
Arguments RouterPush {B} _.
Arguments ToastSuccess {B} _.
Arguments ToastError {B} _.

(** [V] is the type of the form's field values, [B] the type of a request
    body. [trace] lists the effects in the order they were issued. *)
Record World (V B : Type) : Type := mkWorld
  { values : V;
    errors : list Zod.FieldError;
    open : bool;
    loading : bool;
    trace : list (Effect B) }.
Arguments mkWorld {V B} _ _ _ _ _.
Arguments values {V B} _.
Arguments errors {V B} _.
Arguments open {V B} _.
Arguments loading {V B} _.
Arguments trace {V B} _.

(** How a block ends: normally, or by a thrown error (a rejected promise at
    an [await]). No handler inspects the error, so it carries nothing. *)
Inductive Completion (A : Type) : Type :=
| Normal (a : A)
| Throw.
Arguments Normal {A} _.
Arguments Throw {A}.

(** An asynchronous function started in a world either completes, or is
    suspended at an [await] on a request it has just sent. [resume] continues
    it once the request has settled, with the outcome ([true]: fulfilled,
    [false]: rejected) and the world of that later moment. *)
Inductive Run (V B A : Type) : Type :=
| Done (c : Completion A) (w : World V B)
| Await (r : Request B) (w : World V B) (resume : bool -> World V B -> Run V B A).
Arguments Done {V B A} _ _.
Arguments Await {V B A} _ _ _.

Definition M (V B A : Type) : Type := World V B -> Run V B A.

Section Monad.

Context {V B : Type}.

Definition ret {A : Type} (a : A) : M V B A := fun w => Done (Normal a) w.

(** Sequencing: [x; k]. A throw skips [k]. *)
Fixpoint then_ {A C : Type} (x : Run V B A) (k : A -> M V B C) : Run V B C :=
  match x with
  | Done (Normal a) w => k a w
  | Done Throw w => Done Throw w
  | Await r w resume => Await r w (fun ok w' => then_ (resume ok w') k)
  end.

Definition bind {A C : Type} (m : M V B A) (k : A -> M V B C) : M V B C :=
  fun w => then_ (m w) k.

(** [try { x } catch (error) { handler }] *)
Fixpoint catch_ (x : Run V B unit) (handler : M V B unit) : Run V B unit :=
  match x with
  | Done (Normal a) w => Done (Normal a) w
  | Done Throw w => handler w
  | Await r w resume => Await r w (fun ok w' => catch_ (resume ok w') handler)
  end.

(** The end of a [finally] block entered by a throw: the block runs, and the
    whole statement throws. *)
Fixpoint rethrow (x : Run V B unit) : Run V B unit :=
  match x with
  | Done _ w => Done Throw w
  | Await r w resume => Await r w (fun ok w' => rethrow (resume ok w'))
  end.

(** [try { x } finally { cleanup }] *)
Fixpoint finally_ (x : Run V B unit) (cleanup : M V B unit) : Run V B unit :=
  match x with
  | Done (Normal _) w => cleanup w
  | Done Throw w => rethrow (cleanup w)
  | Await r w resume => Await r w (fun ok w' => finally_ (resume ok w') cleanup)
  end.

(** [try { body } catch (error) { handler } finally { cleanup }] *)
Definition try_catch_finally (body handler cleanup : M V B unit) : M V B unit :=
  fun w => finally_ (catch_ (body w) handler) cleanup.

Definition emit (e : Effect B) : M V B unit :=
  fun w => Done (Normal tt)
             (mkWorld (values w) (errors w) (open w) (loading w) (trace w ++ [e])).

(** React state setters. *)
Definition setLoading (b : bool) : M V B unit :=
  fun w => Done (Normal tt) (mkWorld (values w) (errors w) (open w) b (trace w)).

Definition setOpen (b : bool) : M V B unit :=
  fun w => Done (Normal tt) (mkWorld (values w) (errors w) b (loading w) (trace w)).

Definition setErrors (es : list Zod.FieldError) : M V B unit :=
  fun w => Done (Normal tt) (mkWorld (values w) es (open w) (loading w) (trace w)).

(** [await axios.<method>(url, body)]: the request is sent, the function is
    suspended; it resumes normally when the promise is fulfilled and with a
    throw when it is rejected. *)
Definition axios (r : Request B) : M V B unit :=
  fun w =>
    Await r (mkWorld (values w) (errors w) (open w) (loading w) (trace w ++ [Http r]))
      (fun ok w' => Done (if ok then Normal tt else Throw) w').

Definition axios_post (u : string) (data : B) : M V B unit :=
  axios (mkRequest POST u (Some data)).

Definition axios_patch (u : string) (data : B) : M V B unit :=
  axios (mkRequest PATCH u (Some data)).

Definition axios_delete (u : string) : M V B unit :=
  axios (mkRequest DELETE u None).

Definition router_refresh : M V B unit := emit RouterRefresh.
Definition router_push (href : string) : M V B unit := emit (RouterPush href).
Definition toast_success (message : string) : M V B unit := emit (ToastSuccess message).
Definition toast_error (message : string) : M V B unit := emit (ToastError message).

(** [form.handleSubmit(onValid)] of the form library with a schema
    resolver: the current values are parsed; the valid handler runs on the
    parsed data only when there is no issue, otherwise the issues become
    the form's field errors and the handler is not called. *)
Definition handleSubmit {D : Type}
    (resolver : V -> list Zod.FieldError + D) (onValid : D -> M V B unit) : M V B unit :=
  fun w =>
    match resolver (values w) with
    | inl issues => setErrors issues w
    | inr data => bind (setErrors []) (fun _ => onValid data) w
    end.

(** The remote API: whether a request is fulfilled ([true]) or rejected
    ([false]). *)
Definition Server : Type := Request B -> bool.

(** A handler run to its end against a server, with nothing else happening
    in between: every request settles as the server decides. *)
Fixpoint run {A : Type} (server : Server) (x : Run V B A) : Completion A * World V B :=
  match x with
  | Done c w => (c, w)
  | Await r w resume => run server (resume (server r) w)
  end.

End Monad.

Declare Scope handler_scope.
Delimit Scope handler_scope with handler.
Notation "m1 ;; m2" := (bind m1 (fun _ => m2))
  (at level 61, right associativity) : handler_scope.
Notation "'TRY' b 'CATCH' h 'FINALLY' c" := (try_catch_finally b h c)
  (at level 10, b at level 200, h at level 200, c at level 200) : handler_scope.

Local Open Scope handler_scope.

(** ** The record types generated from the database schema *)

Module Prisma.

(** Modelled from the spec: the generated type [Image] is not among the
    sources; the spec calls it an image reference, and the form reads its
    [url] only. *)
Record Image : Type := mkImage { url : string }.

Module Product.

(** Modelled from the spec: the generated type [Product] (with its images)
    is not among the sources; the fields are those the spec lists: id, name,
    price, references to Category/Size/Color, list of image references,
    isFeatured flag, isArchived flag, timestamps. The price is a decimal. *)
Record t : Type := mk
  { id : string;
    name : string;
    price : Q;
    categoryId : string;
    sizeId : string;
    colorId : string;
    images : list Image;
    isFeatured : bool;
    isArchived : bool;
    createdAt : string;
    updatedAt : string }.

End Product.

Module Category.

(** Modelled from the spec: the generated type [Category] is not among the
    sources; the fields are those the spec lists: id, name, reference to one
    Billboard, timestamps. *)
Record t : Type := mk
  { id : string;
    name : string;
    billboardId : string;
    createdAt : string;
    updatedAt : string }.

End Category.

End Prisma.

(** ** What a component renders: its controls and whether each is disabled *)

Inductive ControlKind : Type :=
| Field (name : string)
| SubmitButton
| DeleteButton
| ConfirmButton
| CancelButton.

Record Control : Type := mkControl
  { kind : ControlKind;
    disabled : bool }.

Definition kind_eqb (a b : ControlKind) : bool :=
  match a, b with
  | Field x, Field y => x =? y
  | SubmitButton, SubmitButton => true
  | DeleteButton, DeleteButton => true
  | ConfirmButton, ConfirmButton => true
  | CancelButton, CancelButton => true
  | _, _ => false
  end.

(** A control can be operated when it is rendered and not disabled. *)
Definition enabled (c : ControlKind) (controls : list Control) : bool :=
  existsb (fun x => kind_eqb (kind x) c && negb (disabled x)) controls.

(** Modelled from the spec: the confirmation modal [AlertModal] is not among
    the sources. The spec (4.2) gives it an open/closed boolean, a loading
    boolean that disables the confirm button, and two callbacks, confirm and
    cancel. *)
Definition AlertModal (isOpen loading : bool) : list Control :=
  if isOpen
  then [ mkControl CancelButton false; mkControl ConfirmButton loading ]
  else [].

(** ** The product form *)

Module ProductForm.

(** The shape of the form's values; [P] is the type of the price: any
    run-time value before the schema has coerced it, a number after. *)
Record ProductFormValues (P : Type) : Type := mkValues
  { name : string;
    images : list Prisma.Image;
    price : P;
    categoryId : string;
    colorId : string;
    sizeId : string;
    isFeatured : option bool;
    isArchived : option bool }.
Arguments mkValues {P} _ _ _ _ _ _ _ _.
Arguments name {P} _.
Arguments images {P} _.
Arguments price {P} _.
Arguments categoryId {P} _.
Arguments colorId {P} _.
Arguments sizeId {P} _.
Arguments isFeatured {P} _.
Arguments isArchived {P} _.

(** [useParams()] *)
Record Params : Type := mkParams
  { storeId : string;
    productId : string }.

Section Component.

Variable StringToNumber : string -> Js.number.
(** [String(d)] on a decimal and [parseFloat]. *)
Variable DecimalToString : Q -> string.
Variable parseFloat : string -> Js.number.

Variable initialData : option Prisma.Product.t.
Variable params : Params.

(** The issues [formSchema] finds, key by key. The two flags are optional
    booleans and raise no issue on a boolean or a missing value. *)
Definition formSchema_issues (v : ProductFormValues Js.value) : list Zod.FieldError :=
  Zod.at_key "name" (Zod.string_min 1 (name v)) ++
  Zod.at_key "images" (Zod.array (fun i => Zod.string_ (Prisma.url i)) (images v)) ++
  Zod.at_key "price" (Zod.number_min 1 (Js.Number StringToNumber (price v))) ++
  Zod.at_key "categoryId" (Zod.string_min 1 (categoryId v)) ++
  Zod.at_key "colorId" (Zod.string_min 1 (colorId v)) ++
  Zod.at_key "sizeId" (Zod.string_min 1 (sizeId v)).

(** [zodResolver(formSchema)]: the issues, or the parsed data (the price
    coerced to a number). *)
Definition formSchema (v : ProductFormValues Js.value)
  : list Zod.FieldError + ProductFormValues Js.number :=
  match formSchema_issues v with
  | [] =>
      inr (mkValues (name v) (images v) (Js.Number StringToNumber (price v))
             (categoryId v) (colorId v) (sizeId v) (isFeatured v) (isArchived v))
  | issues => inl issues
  end.

Definition title : string :=
  match initialData with Some _ => "Edit Produk" | None => "Buat Produk Baru" end.
Definition description : string :=
  match initialData with Some _ => "Edit produk" | None => "Buat Produk Baru" end.
Definition toastMessage : string :=
  match initialData with Some _ => "Produk di Perbarui." | None => "Produk berhasil dibuat" end.
Definition action : string :=
  match initialData with Some _ => "Simpan Perubahan" | None => "Buat Baru" end.

Definition defaultValues : ProductFormValues Js.value :=
  match initialData with
  | Some p =>
      mkValues (Prisma.Product.name p) (Prisma.Product.images p)
        (Js.VNumber (parseFloat (DecimalToString (Prisma.Product.price p))))
        (Prisma.Product.categoryId p) (Prisma.Product.colorId p) (Prisma.Product.sizeId p)
        (Some (Prisma.Product.isFeatured p)) (Some (Prisma.Product.isArchived p))
  | None =>
      mkValues "" [] (Js.VNumber (Js.Finite 0)) "" "" "" (Some false) (Some false)
  end.

Definition onSubmit (data : ProductFormValues Js.number)
  : M (ProductFormValues Js.value) (ProductFormValues Js.number) unit :=
  TRY
    setLoading true ;;
    match initialData with
    | Some _ =>
        axios_patch ("/api/" ++ storeId params ++ "/products/" ++ productId params) data
    | None =>
        axios_post ("/api/" ++ storeId params ++ "/products") data
    end ;;
    router_refresh ;;
    router_push ("/" ++ storeId params ++ "/products") ;;
    toast_success toastMessage
  CATCH
    toast_error "Ada sesuatu yang salah"
  FINALLY
    setLoading false.

Definition onDelete
  : M (ProductFormValues Js.value) (ProductFormValues Js.number) unit :=
  TRY
    setLoading true ;;
    axios_delete ("/api/" ++ storeId params ++ "/products/" ++ productId params) ;;
    router_refresh ;;
    router_push ("/" ++ storeId params ++ "/products") ;;
    toast_success "Produk dihapus"
  CATCH
    toast_error "Ada sesuatu yang salah"
  FINALLY
    (setLoading false ;;
     setOpen false).

(** [form.handleSubmit(onSubmit)], the form's submit listener. *)
Definition submit
  : M (ProductFormValues Js.value) (ProductFormValues Js.number) unit :=
  handleSubmit formSchema onSubmit.

(** The controls of the rendered form, in document order, with the value of
    each one's [disabled] property. The two checkboxes are rendered without
    a [disabled] property. The delete button is rendered in edit mode only. *)
Definition render (loading : bool) : list Control :=
  match initialData with
  | Some _ => [mkControl DeleteButton loading]
  | None => []
  end ++
  [ mkControl (Field "images") loading;
    mkControl (Field "name") loading;
    mkControl (Field "price") loading;
    mkControl (Field "categoryId") loading;
    mkControl (Field "sizeId") loading;
    mkControl (Field "colorId") loading;
    mkControl (Field "isFeatured") false;
    mkControl (Field "isArchived") false;
    mkControl SubmitButton loading ].

(** Everything on screen in a given state: the modal and the form. *)
Definition view (w : World (ProductFormValues Js.value) (ProductFormValues Js.number))
  : list Control :=
  AlertModal (open w) (loading w) ++ render (loading w).

(** The listener attached to each button: [onSubmit] of the form element,
    [onClick] of the delete button, [onConfirm] and [onClose] of the modal. *)
Definition listener (c : ControlKind)
  : M (ProductFormValues Js.value) (ProductFormValues Js.number) unit :=
  match c with
  | SubmitButton => submit
  | DeleteButton => setOpen true
  | ConfirmButton => onDelete
  | CancelButton => setOpen false
  | Field _ => ret tt
  end.

(** [field.onChange(images)] of the images field: the form's value of that
    field is replaced, the other fields are left alone. *)
Definition images_field_onChange {P : Type}
    (new_images : list Prisma.Image) (v : ProductFormValues P) : ProductFormValues P :=
  mkValues (name v) new_images (price v) (categoryId v) (colorId v) (sizeId v)
    (isFeatured v) (isArchived v).

(** The three properties handed to the image upload widget:
    [value={field.value.map((image) => image.url)}],
    [onChange={(url) => field.onChange([...field.value, { url }])}] and
    [onRemove={(url) => field.onChange([...field.value.filter((current) =>
    current.url !== url)])}]. *)
Definition ImageUpload_value {P : Type} (v : ProductFormValues P) : list string :=
  map (fun image => Prisma.url image) (images v).

Definition ImageUpload_onChange {P : Type} (url : string) (v : ProductFormValues P)
  : ProductFormValues P :=
  images_field_onChange (images v ++ [Prisma.mkImage url]) v.

Definition ImageUpload_onRemove {P : Type} (url : string) (v : ProductFormValues P)
  : ProductFormValues P :=
  images_field_onChange
    (filter (fun current => negb (Prisma.url current =? url)) (images v)) v.

End Component.

End ProductForm.

(** ** The category form *)

Module CategoryForm.

Record CategoryFormValues : Type := mkValues
  { name : string;
    billboardId : string }.

(** [useParams()] *)
Record Params : Type := mkParams
  { storeId : string;
    categoryId : string }.

Section Component.

Variable initialData : option Prisma.Category.t.
Variable params : Params.

Definition formSchema_issues (v : CategoryFormValues) : list Zod.FieldError :=
  Zod.at_key "name" (Zod.string_min 1 (name v)) ++
  Zod.at_key "billboardId" (Zod.string_min 1 (billboardId v)).

(** [zodResolver(formSchema)] *)
Definition formSchema (v : CategoryFormValues)
  : list Zod.FieldError + CategoryFormValues :=
  match formSchema_issues v with
  | [] => inr (mkValues (name v) (billboardId v))
  | issues => inl issues
  end.

Definition title : string :=
  match initialData with Some _ => "Edit Kategori" | None => "Buat Kategori" end.
Definition description : string :=
  match initialData with Some _ => "Edit Kategori" | None => "Buat kategori yang baru" end.
Definition toastMessage : string :=
  match initialData with Some _ => "Kategori diperbarui." | None => "Kategori berhasil dibuat" end.
Definition action : string :=
  match initialData with Some _ => "Simpan perubahan" | None => "Buat Baru" end.

(** [initialData || { name: '', billboardId: '' }] *)
Definition defaultValues : CategoryFormValues :=
  match initialData with
  | Some c => mkValues (Prisma.Category.name c) (Prisma.Category.billboardId c)
  | None => mkValues "" ""
  end.

Definition onSubmit (data : CategoryFormValues)
  : M CategoryFormValues CategoryFormValues unit :=
  TRY
    setLoading true ;;
    match initialData with
    | Some _ =>
        axios_patch ("/api/" ++ storeId params ++ "/categories/" ++ categoryId params) data
    | None =>
        axios_post ("/api/" ++ storeId params ++ "/categories") data
    end ;;
    router_refresh ;;
    router_push ("/" ++ storeId params ++ "/categories") ;;
    toast_success toastMessage
  CATCH
    toast_error "Ada sesuatu yang salah"
  FINALLY
    setLoading false.

Definition onDelete : M CategoryFormValues CategoryFormValues unit :=
  TRY
    setLoading true ;;
    axios_delete ("/api/" ++ storeId params ++ "/categories/" ++ categoryId params) ;;
    router_refresh ;;
    router_push ("/" ++ storeId params ++ "/categories") ;;
    toast_success "Kategori dihapus."
  CATCH
    toast_error "Pastikan kamu sudah menghapus semua produk yang menggunakan kategori ini"
  FINALLY
    (setLoading false ;;
     setOpen false).

(** [form.handleSubmit(onSubmit)], the form's submit listener. *)
Definition submit : M CategoryFormValues CategoryFormValues unit :=
  handleSubmit formSchema onSubmit.

(** The controls of the rendered form, in document order. *)
Definition render (loading : bool) : list Control :=
  match initialData with
  | Some _ => [mkControl DeleteButton loading]
  | None => []
  end ++
  [ mkControl (Field "name") loading;
    mkControl (Field "billboardId") loading;
    mkControl SubmitButton loading ].

(** Everything on screen in a given state: the modal and the form. *)
Definition view (w : World CategoryFormValues CategoryFormValues) : list Control :=
  AlertModal (open w) (loading w) ++ render (loading w).

(** The listener attached to each button. *)
Definition listener (c : ControlKind) : M CategoryFormValues CategoryFormValues unit :=
  match c with
  | SubmitButton => submit
  | DeleteButton => setOpen true
  | ConfirmButton => onDelete
  | CancelButton => setOpen false
  | Field _ => ret tt
  end.

End Component.

End CategoryForm.

(** ** The row action of the colour table *)

Module CellAction.

(** Modelled from the spec: the row type [ColorColumn] is declared in a file
    that is not among the sources; the spec lists a colour's id, name,
    value and timestamp. The action reads the [id] only. *)
Record ColorColumn : Type := mkColorColumn
  { id : string;
    name : string;
    value : string;
    createdAt : string }.

(** [useParams()] *)
Record Params : Type := mkParams
  { storeId : string }.

Section Component.

Variable data : ColorColumn.
Variable params : Params.

(** The row has no form: there are no field values and no request body. *)
Definition onDelete : M unit unit unit :=
  TRY
    setLoading true ;;
    axios_delete ("/api/" ++ storeId params ++ "/colors/" ++ id data) ;;
    router_refresh ;;
    toast_success "Tipe Obat Dihapus."
  CATCH
    toast_error "Pastikan anda sudah menghapus semua Obat yang menggunakan Tipe Obat ini."
  FINALLY
    (setLoading false ;;
     setOpen false).

(** The menu item "Perbarui":
    [onClick={() => router.push(`/${params.storeId}/colors/${data.id}`)}]. *)
Definition onUpdateClick : M unit unit unit :=
  router_push ("/" ++ storeId params ++ "/colors/" ++ id data).

End Component.

End CellAction.

(** ** The navigation menu *)

Module MainNav.

Record Route : Type := mkRoute
  { href : string;
    label : string;
    active : bool }.

Section Component.

(** [usePathname()] and the [storeId] of [useParams()]. *)
Variable pathname : string.
Variable storeId : string.

Definition routes : list Route :=
  [ mkRoute ("/" ++ storeId) "Overview" (pathname =? "/" ++ storeId);
    mkRoute ("/" ++ storeId ++ "/billboards") "Papan Iklan"
      (pathname =? "/" ++ storeId ++ "/billboards");
    mkRoute ("/" ++ storeId ++ "/categories") "Kategori"
      (pathname =? "/" ++ storeId ++ "/categories");
    mkRoute ("/" ++ storeId ++ "/sizes") "Bentuk Obat"
      (pathname =? "/" ++ storeId ++ "/sizes");
    mkRoute ("/" ++ storeId ++ "/colors") "Tipe Obat"
      (pathname =? "/" ++ storeId ++ "/colors");
    mkRoute ("/" ++ storeId ++ "/products") "Produk"
      (pathname =? "/" ++ storeId ++ "/products");
    mkRoute ("/" ++ storeId ++ "/orders") "Pesanan"
      (pathname =? "/" ++ storeId ++ "/orders");
    mkRoute ("/" ++ storeId ++ "/settings") "Setting"
      (pathname =? "/" ++ storeId ++ "/settings") ].

End Component.

(** What follows the store prefix in the eight hrefs, in menu order. *)
Definition route_suffixes : list string :=
  [ ""; "/billboards"; "/categories"; "/sizes"; "/colors"; "/products";
    "/orders"; "/settings" ].

(** The seven entries below the overview. *)
Definition resource_suffixes : list string :=
  [ "/billboards"; "/categories"; "/sizes"; "/colors"; "/products";
    "/orders"; "/settings" ].

(** The number of menu entries whose [active] flag is set. *)
Definition active_count (rs : list Route) : nat :=
  List.length (filter active rs).

End MainNav.

(** ** A component in use: user events and requests in flight *)

(** The state of a mounted component: its world, and the handlers that are
    suspended on a request that has not settled yet. *)
Record Session (V B : Type) : Type := mkSession
  { world : World V B;
    inflight : list (bool -> World V B -> Run V B unit) }.
Arguments mkSession {V B} _ _.
Arguments world {V B} _.
Arguments inflight {V B} _.

(** What can happen: the user operates a button, the user edits a field, or
    the [i]-th request in flight settles. *)
Inductive Event (V : Type) : Type :=
| Click (c : ControlKind)
| Edit (field : string) (change : V -> V)
| Settle (i : nat) (fulfilled : bool).
Arguments Click {V} _.
Arguments Edit {V} _ _.
Arguments Settle {V} _ _.

Fixpoint remove_nth {A : Type} (i : nat) (l : list A) : list A :=
  match l, i with
  | [], _ => []
  | _ :: l', O => l'
  | a :: l', S i' => a :: remove_nth i' l'
  end.

Section Session.

Context {V B : Type}.

(** A suspended handler that, as soon as its request settles, finishes and
    leaves the loading flag reset. *)
Definition finishes (resume : bool -> World V B -> Run V B unit) : Prop :=
  forall ok w, exists c w', resume ok w = Done c w' /\ loading w' = false.

(** Nothing is in flight and the loading flag is not set, or one request is
    in flight and the flag is set. *)
Definition single_flight (s : Session V B) : Prop :=
  (inflight s = [] /\ loading (world s) = false) \/
  (exists resume, inflight s = [resume] /\ finishes resume /\ loading (world s) = true).

Variable view : World V B -> list Control.
Variable listener : ControlKind -> M V B unit.

(** A handler has run as far as it can: its world is the component's, and
    when it is suspended it joins the handlers in flight. *)
Definition suspend (x : Run V B unit) (pending : list (bool -> World V B -> Run V B unit))
  : Session V B :=
  match x with
  | Done _ w => mkSession w pending
  | Await _ w resume => mkSession w (pending ++ [resume])
  end.

(** One event. A disabled or absent control does not react, and only a
    request in flight can settle: then there is no step. The component is
    rendered again before the next event. *)
Definition step (s : Session V B) (e : Event V) : option (Session V B) :=
  match e with
  | Click c =>
      if enabled c (view (world s))
      then Some (suspend (listener c (world s)) (inflight s))
      else None
  | Edit field change =>
      if enabled (Field field) (view (world s))
      then Some (mkSession
                   (mkWorld (change (values (world s))) (errors (world s))
                      (open (world s)) (loading (world s)) (trace (world s)))
                   (inflight s))
      else None
  | Settle i fulfilled =>
      match nth_error (inflight s) i with
      | Some resume =>
          Some (suspend (resume fulfilled (world s)) (remove_nth i (inflight s)))
      | None => None
      end
  end.

Fixpoint steps (s : Session V B) (es : list (Event V)) : option (Session V B) :=
  match es with
  | [] => Some s
  | e :: es' =>
      match step s e with
      | Some s' => steps s' es'
      | None => None
      end
  end.

End Session.

(** ** Properties of worlds kept along a handler *)

Section Along.

Context {V B A : Type}.
Variable P : World V B -> Prop.

(** [P] holds of the world at every suspension of the handler and of the
    world it ends in, provided [P] holds of the world at every resumption
    (other handlers and the user may have acted in between). *)
Fixpoint holds_along (x : Run V B A) : Prop :=
  match x with
  | Done _ w => P w
  | Await _ w resume => P w /\ forall ok w', P w' -> holds_along (resume ok w')
  end.

End Along.

(** [P] holds of the session's world and is kept by every handler in
    flight, whenever it is resumed. *)
Definition kept {V B : Type} (P : World V B -> Prop) (s : Session V B) : Prop :=
  P (world s) /\
  Forall (fun resume => forall ok w', P w' -> holds_along P (resume ok w')) (inflight s).

(** ** Reading a trace *)

(** The navigations, the requests and the error toasts of a trace, in
    order. *)
Definition navigations {B : Type} (t : list (Effect B)) : list string :=
  flat_map (fun e => match e with RouterPush h => [h] | _ => [] end) t.

Definition requests {B : Type} (t : list (Effect B)) : list (Request B) :=
  flat_map (fun e => match e with Http r => [r] | _ => [] end) t.

Definition error_toasts {B : Type} (t : list (Effect B)) : list string :=
  flat_map (fun e => match e with ToastError m => [m] | _ => [] end) t.

(** The world of a freshly mounted component: [useState(false)] twice, the
    form's initial values, no error, nothing done yet. *)
Definition mount {V B : Type} (v : V) : World V B := mkWorld v [] false false [].

(** ** What a form is expected to send *)

(** A product body that satisfies every constraint of the schema. *)
Definition product_body_ok (d : ProductForm.ProductFormValues Js.number) : bool :=
  negb (ProductForm.name d =? "") &&
  Js.le (Js.Finite 1) (ProductForm.price d) &&
  negb (ProductForm.categoryId d =? "") &&
  negb (ProductForm.colorId d =? "") &&
  negb (ProductForm.sizeId d =? "").

(** A category body that satisfies every constraint of the schema. *)
Definition category_body_ok (d : CategoryForm.CategoryFormValues) : bool :=
  negb (CategoryForm.name d =? "") && negb (CategoryForm.billboardId d =? "").

(** The requests of a form, by mode: a create form sends a POST to the
    collection with a valid body; an edit form sends a PATCH to the record
    with a valid body, or a DELETE to the record with no body. *)
Definition form_request_ok {R D : Type} (body_ok : D -> bool)
    (collection record : string) (initialData : option R) (r : Request D) : bool :=
  match initialData, method r, body r with
  | None, POST, Some d => (url r =? collection) && body_ok d
  | Some _, PATCH, Some d => (url r =? record) && body_ok d
  | Some _, DELETE, None => url r =? record
  | _, _, _ => false
  end.

(** A world in which every request sent so far is one the form is expected
    to send, and, for a create form, the confirmation modal is closed. *)
Definition only_expected_requests {R V D : Type} (body_ok : D -> bool)
    (collection record : string) (initialData : option R) (w : World V D) : Prop :=
  match initialData with None => open w = false | Some _ => True end /\
  forallb (form_request_ok body_ok collection record initialData) (requests (trace w)) = true.

(** Parsed product data written back into the form: the price is now a
    number. *)
Definition product_data_as_values (d : ProductForm.ProductFormValues Js.number)
  : ProductForm.ProductFormValues Js.value :=
  ProductForm.mkValues (ProductForm.name d) (ProductForm.images d)
    (Js.VNumber (ProductForm.price d))
    (ProductForm.categoryId d) (ProductForm.colorId d) (ProductForm.sizeId d)
    (ProductForm.isFeatured d) (ProductForm.isArchived d).

(** ** The column definitions of the list views *)

Module Table.

(** What a cell shows: by default the value the column reads from the row
    ([None] when the row has no such key: nothing is shown); or what the
    column's own [cell] renderer returns: a text, a text with a colour
    swatch, or the row's action menu. *)
Inductive Rendered (R : Type) : Type :=
| Default (value : option Js.value)
| Text (s : string)
| Swatch (s : string) (backgroundColor : string)
| Actions (data : R).
Arguments Default {R} _.
Arguments Text {R} _.
Arguments Swatch {R} _ _.
Arguments Actions {R} _.

(** A column definition: the optional properties [accessorKey], [id],
    [header] and [cell]. *)
Record ColumnDef (R : Type) : Type := mkColumn
  { accessorKey : option string;
    id : option string;
    header : option string;
    cell : option (R -> Rendered R) }.
Arguments mkColumn {R} _ _ _ _.
Arguments accessorKey {R} _.
Arguments id {R} _.
Arguments header {R} _.
Arguments cell {R} _.

(** [row[key]] on the row seen as an object with the given properties. *)
Fixpoint get (properties : list (string * Js.value)) (key : string) : option Js.value :=
  match properties with
  | [] => None
  | (k, v) :: rest => if k =? key then Some v else get rest key
  end.

Section Columns.

Context {R : Type}.
(** The properties of a row object. *)
Variable properties : R -> list (string * Js.value).

(** The identifier the table gives a column: its [id], or else its
    [accessorKey]. *)
Definition column_id (c : ColumnDef R) : option string :=
  match id c with
  | Some i => Some i
  | None => accessorKey c
  end.

(** The value a column reads from a row, used for its default cell and for
    sorting and filtering: [row[accessorKey]]. *)
Definition accessor_value (c : ColumnDef R) (row : R) : option Js.value :=
  match accessorKey c with
  | Some key => get (properties row) key
  | None => None
  end.

(** The cell of a column in a row. *)
Definition render_cell (c : ColumnDef R) (row : R) : Rendered R :=
  match cell c with
  | Some renderer => renderer row
  | None => Default (accessor_value c row)
  end.

(** The column has an [accessorKey] that is not a key of the row. *)
Definition reads_missing_key (c : ColumnDef R) (row : R) : bool :=
  match accessorKey c with
  | Some key => match get (properties row) key with None => true | Some _ => false end
  | None => false
  end.

End Columns.

End Table.

Module Orders.

Record OrderColumn : Type := mkOrderColumn
  { id : string;
    phone : string;
    address : string;
    isPaid : bool;
    totalPrice : string;
    products : string;
    createdAt : string }.

Definition properties (row : OrderColumn) : list (string * Js.value) :=
  [ ("id", Js.VString (id row)); ("phone", Js.VString (phone row));
    ("address", Js.VString (address row)); ("isPaid", Js.VBoolean (isPaid row));
    ("totalPrice", Js.VString (totalPrice row)); ("products", Js.VString (products row));
    ("createdAt", Js.VString (createdAt row)) ].

Definition columns : list (Table.ColumnDef OrderColumn) :=
  [ Table.mkColumn (Some "products") None (Some "Nama Produk") None;
    Table.mkColumn (Some "phone") None (Some "No. Telp") None;
    Table.mkColumn (Some "address") None (Some "Alamat") None;
    Table.mkColumn (Some "totalPrice") None (Some "Total Pembelian") None;
    Table.mkColumn (Some "isPaid") None (Some "Pembayaran") None ].

End Orders.

Module Categories.

Record CategoryColumn : Type := mkCategoryColumn
  { id : string;
    name : string;
    billboardLabel : string;
    createdAt : string }.

Definition properties (row : CategoryColumn) : list (string * Js.value) :=
  [ ("id", Js.VString (id row)); ("name", Js.VString (name row));
    ("billboardLabel", Js.VString (billboardLabel row));
    ("createdAt", Js.VString (createdAt row)) ].

Definition columns : list (Table.ColumnDef CategoryColumn) :=
  [ Table.mkColumn (Some "name") None (Some "Nama") None;
    Table.mkColumn (Some "billboard") None (Some "Papan Iklan")
      (Some (fun row => Table.Text (billboardLabel row)));
    Table.mkColumn (Some "createdAt") None (Some "Tanggal") None;
    Table.mkColumn None (Some "actions") None (Some (fun row => Table.Actions row)) ].

End Categories.

Module Products.

Record ProductColumn : Type := mkProductColumn
  { id : string;
    name : string;
    price : string;
    size : string;
    category : string;
    color : string;
    isFeatured : bool;
    isArchived : bool;
    createdAt : string }.

Definition properties (row : ProductColumn) : list (string * Js.value) :=
  [ ("id", Js.VString (id row)); ("name", Js.VString (name row));
    ("price", Js.VString (price row)); ("size", Js.VString (size row));
    ("category", Js.VString (category row)); ("color", Js.VString (color row));
    ("isFeatured", Js.VBoolean (isFeatured row));
    ("isArchived", Js.VBoolean (isArchived row));
    ("createdAt", Js.VString (createdAt row)) ].

Definition columns : list (Table.ColumnDef ProductColumn) :=
  [ Table.mkColumn (Some "name") None (Some "Nama") None;
    Table.mkColumn (Some "isArchived") None (Some "Di Arsipkan") None;
    Table.mkColumn (Some "isFeatured") None (Some "Dijual") None;
    Table.mkColumn (Some "price") None (Some "Harga") None;
    Table.mkColumn (Some "category") None (Some "Kategori") None;
    Table.mkColumn (Some "size") None (Some "Bentuk Obat") None;
    Table.mkColumn (Some "color") None (Some "Tipe Obat")
      (Some (fun row => Table.Swatch (color row) (color row)));
    Table.mkColumn (Some "createdAt") None (Some "Tanggal") None;
    Table.mkColumn None (Some "actions") None (Some (fun row => Table.Actions row)) ].

End Products.

Module Sizes.

Record SizeColumn : Type := mkSizeColumn
  { id : string;
    name : string;
    value : string;
    createdAt : string }.

Definition properties (row : SizeColumn) : list (string * Js.value) :=
  [ ("id", Js.VString (id row)); ("name", Js.VString (name row));
    ("value", Js.VString (value row)); ("createdAt", Js.VString (createdAt row)) ].

Definition columns : list (Table.ColumnDef SizeColumn) :=
  [ Table.mkColumn (Some "name") None (Some "Nama") None;
    Table.mkColumn (Some "value") None (Some "Value") None;
    Table.mkColumn None (Some "actions") None (Some (fun row => Table.Actions row)) ].

End Sizes.

(** * Properties *)

(** ** Strings *)

Lemma append_cancel_l (p a b : string) : p ++ a = p ++ b -> a = b.
Proof.
  induction p as [|c p IH]; simpl; intro H.
  - exact H.
  - injection H as H. apply IH, H.
Qed.

Lemma append_empty_r (s : string) : s ++ "" = s.
Proof.
  induction s as [|c s IH]; simpl; [reflexivity | now rewrite IH].
Qed.

(** ** The navigation menu *)

Section MainNavFacts.

Import MainNav.

Lemma hrefs_by_suffix (pathname storeId : string) :
  map href (routes pathname storeId) =
  map (fun s => "/" ++ storeId ++ s) route_suffixes.
Proof.
  unfold routes, route_suffixes. cbn [map href].
  now rewrite append_empty_r.
Qed.

Lemma route_suffixes_NoDup : NoDup route_suffixes.
Proof.
  unfold route_suffixes.
  repeat (constructor; [cbn [In]; intuition discriminate |]).
  constructor.
Qed.

Lemma hrefs_NoDup (pathname storeId : string) :
  NoDup (map href (routes pathname storeId)).
Proof.
  rewrite hrefs_by_suffix.
  apply Injective_map_NoDup; [| exact route_suffixes_NoDup].
  intros a b H. cbn [append] in H. injection H as H.
  exact (append_cancel_l _ _ _ H).
Qed.

Lemma active_is_equality (pathname storeId : string) :
  Forall (fun r => active r = (pathname =? href r))
         (routes pathname storeId).
Proof.
  unfold routes. repeat constructor.
Qed.

Lemma no_active_off_menu (pathname : string) (rs : list Route) :
  Forall (fun r => active r = (pathname =? href r)) rs ->
  ~ In pathname (map href rs) ->
  filter active rs = [].
Proof.
  induction rs as [|r rs IH]; intros Hact Hnotin; [reflexivity |].
  inversion Hact as [|? ? Hr Hrs]; subst.
  cbn [filter]. destruct (active r) eqn:Ha.
  - exfalso. apply Hnotin. left.
    symmetry in Hr. apply String.eqb_eq in Hr. now symmetry.
  - apply IH; [exact Hrs |].
    intro Hin. apply Hnotin. right. exact Hin.
Qed.

(** Among entries with distinct hrefs whose flag is the equality test, at
    most one flag is set. *)
Lemma at_most_one_active (pathname : string) (rs : list Route) :
  Forall (fun r => active r = (pathname =? href r)) rs ->
  NoDup (map href rs) ->
  (active_count rs <= 1)%nat.
Proof.
  unfold active_count.
  induction rs as [|r rs IH]; intros Hact Hnd.
  - cbn. lia.
  - inversion Hact as [|? ? Hr Hrs]; subst.
    inversion Hnd as [|? ? Hnotin Hnd']; subst.
    cbn [filter]. destruct (active r) eqn:Ha.
    + symmetry in Hr. apply String.eqb_eq in Hr.
      rewrite (no_active_off_menu pathname rs Hrs) by (rewrite Hr; exact Hnotin).
      cbn. lia.
    + apply IH; assumption.
Qed.

Lemma subroute_inactive (storeId seg rest : string) :
  In seg resource_suffixes ->
  Forall (fun r => active r = false)
         (routes ("/" ++ storeId ++ seg ++ "/" ++ rest) storeId).
Proof.
  intro Hseg.
  assert (Hne : forall s, In s route_suffixes -> seg ++ "/" ++ rest <> s).
  { intros s Hs Heq. unfold resource_suffixes in Hseg. unfold route_suffixes in Hs.
    cbn [In] in Hseg, Hs.
    repeat (destruct Hseg as [<- | Hseg]; [
      repeat (destruct Hs as [<- | Hs]; [cbn in Heq; discriminate Heq |]);
      contradiction |]).
    contradiction. }
  assert (Hall : Forall (fun h => ("/" ++ storeId ++ seg ++ "/" ++ rest =? h) = false)
                   (map href (routes ("/" ++ storeId ++ seg ++ "/" ++ rest) storeId))).
  { rewrite hrefs_by_suffix. apply Forall_forall. intros h Hh.
    apply in_map_iff in Hh. destruct Hh as [s [<- Hs]].
    apply String.eqb_neq. intro Heq.
    cbn [append] in Heq. injection Heq as Heq.
    apply append_cancel_l in Heq. exact (Hne s Hs Heq). }
  pose proof (active_is_equality ("/" ++ storeId ++ seg ++ "/" ++ rest) storeId) as Hact.
  rewrite Forall_map in Hall.
  rewrite Forall_forall in *. intros r Hr.
  rewrite (Hact r Hr). exact (Hall r Hr).
Qed.

End MainNavFacts.

(** C10. For every pathname and every store identifier (empty or not): each
    menu entry's active flag is the exact string equality of the pathname
    with that entry's href; the eight hrefs are pairwise distinct; hence at
    most one of the eight entries is active. In particular, on a sub-route of
    any of the seven resource entries, such as /{storeId}/billboards/{id}, no
    entry is active. *)
Theorem C10_at_most_one_active_route (pathname storeId : string) :
  Forall (fun r => MainNav.active r = (pathname =? MainNav.href r))
         (MainNav.routes pathname storeId) /\
  List.length (MainNav.routes pathname storeId) = 8%nat /\
  NoDup (map MainNav.href (MainNav.routes pathname storeId)) /\
  (MainNav.active_count (MainNav.routes pathname storeId) <= 1)%nat /\
  Forall (fun seg => forall rest,
            MainNav.active_count
              (MainNav.routes ("/" ++ storeId ++ seg ++ "/" ++ rest) storeId) = 0%nat)
         MainNav.resource_suffixes.
Proof.
  split; [apply active_is_equality |].
  split; [reflexivity |].
  split; [apply hrefs_NoDup |].
  split.
  - apply (at_most_one_active pathname); [apply active_is_equality | apply hrefs_NoDup].
  - apply Forall_forall. intros seg Hseg rest.
    pose proof (subroute_inactive storeId seg rest Hseg) as H.
    unfold MainNav.active_count.
    induction H as [|r rs Hr _ IH]; [reflexivity |].
    cbn [filter]. rewrite Hr. exact IH.
Qed.

(** ** Running the handlers *)

Section HandlerFacts.

Context {V B : Type}.

Variable server : @Server B.

(** The cleanup of a [finally] block runs on every path. *)
Lemma finally_resets_loading (x : Run V B unit) :
  loading (snd (run server (finally_ x (setLoading false)))) = false.
Proof.
  induction x as [[[]|] w | r w resume IH]; cbn; [reflexivity | reflexivity | apply IH].
Qed.

Lemma finally_resets_loading_and_open (x : Run V B unit) :
  let w' := snd (run server (finally_ x (setLoading false ;; setOpen false))) in
  loading w' = false /\ open w' = false.
Proof.
  induction x as [[[]|] w | r w resume IH]; cbn;
    [split; reflexivity | split; reflexivity | apply IH].
Qed.

End HandlerFacts.

(** Unfolds a handler down to the world it returns. *)
Ltac run_handler :=
  cbv [try_catch_finally finally_ catch_ rethrow bind then_ ret emit
       setLoading setOpen setErrors handleSubmit run
       axios axios_post axios_patch axios_delete
       router_refresh router_push toast_success toast_error
       values errors open loading trace].

Ltac tidy_trace := repeat rewrite <- app_assoc; cbn [app].

Lemma ProductForm_onSubmit_run initialData params server data
    (w : World (ProductForm.ProductFormValues Js.value) (ProductForm.ProductFormValues Js.number)) :
  let r := match initialData with
           | Some _ => mkRequest PATCH
                         ("/api/" ++ ProductForm.storeId params ++ "/products/"
                            ++ ProductForm.productId params) (Some data)
           | None => mkRequest POST
                         ("/api/" ++ ProductForm.storeId params ++ "/products") (Some data)
           end in
  run server (ProductForm.onSubmit initialData params data w) =
  (Normal tt,
   mkWorld (values w) (errors w) (open w) false
     (trace w ++ Http r ::
        (if server r
         then [ RouterRefresh;
                RouterPush ("/" ++ ProductForm.storeId params ++ "/products");
                ToastSuccess (ProductForm.toastMessage initialData) ]
         else [ ToastError "Ada sesuatu yang salah" ]))).
Proof.
  destruct w as [v es o l t]. unfold ProductForm.onSubmit.
  destruct initialData as [p|]; run_handler;
    match goal with |- context [server ?r] => destruct (server r) end;
    tidy_trace; reflexivity.
Qed.

Lemma ProductForm_onDelete_run params server
    (w : World (ProductForm.ProductFormValues Js.value) (ProductForm.ProductFormValues Js.number)) :
  let r := mkRequest DELETE
             ("/api/" ++ ProductForm.storeId params ++ "/products/"
                ++ ProductForm.productId params) None in
  run server (ProductForm.onDelete params w) =
  (Normal tt,
   mkWorld (values w) (errors w) false false
     (trace w ++ Http r ::
        (if server r
         then [ RouterRefresh;
                RouterPush ("/" ++ ProductForm.storeId params ++ "/products");
                ToastSuccess "Produk dihapus" ]
         else [ ToastError "Ada sesuatu yang salah" ]))).
Proof.
  destruct w as [v es o l t]. unfold ProductForm.onDelete.
  run_handler;
    match goal with |- context [server ?r] => destruct (server r) end;
    tidy_trace; reflexivity.
Qed.

Lemma CategoryForm_onSubmit_run initialData params server data
    (w : World CategoryForm.CategoryFormValues CategoryForm.CategoryFormValues) :
  let r := match initialData with
           | Some _ => mkRequest PATCH
                         ("/api/" ++ CategoryForm.storeId params ++ "/categories/"
                            ++ CategoryForm.categoryId params) (Some data)
           | None => mkRequest POST
                         ("/api/" ++ CategoryForm.storeId params ++ "/categories") (Some data)
           end in
  run server (CategoryForm.onSubmit initialData params data w) =
  (Normal tt,
   mkWorld (values w) (errors w) (open w) false
     (trace w ++ Http r ::
        (if server r
         then [ RouterRefresh;
                RouterPush ("/" ++ CategoryForm.storeId params ++ "/categories");
                ToastSuccess (CategoryForm.toastMessage initialData) ]
         else [ ToastError "Ada sesuatu yang salah" ]))).
Proof.
  destruct w as [v es o l t]. unfold CategoryForm.onSubmit.
  destruct initialData as [c|]; run_handler;
    match goal with |- context [server ?r] => destruct (server r) end;
    tidy_trace; reflexivity.
Qed.

Lemma CategoryForm_onDelete_run params server
    (w : World CategoryForm.CategoryFormValues CategoryForm.CategoryFormValues) :
  let r := mkRequest DELETE
             ("/api/" ++ CategoryForm.storeId params ++ "/categories/"
                ++ CategoryForm.categoryId params) None in
  run server (CategoryForm.onDelete params w) =
  (Normal tt,
   mkWorld (values w) (errors w) false false
     (trace w ++ Http r ::
        (if server r
         then [ RouterRefresh;
                RouterPush ("/" ++ CategoryForm.storeId params ++ "/categories");
                ToastSuccess "Kategori dihapus." ]
         else [ ToastError
                  "Pastikan kamu sudah menghapus semua produk yang menggunakan kategori ini" ]))).
Proof.
  destruct w as [v es o l t]. unfold CategoryForm.onDelete.
  run_handler;
    match goal with |- context [server ?r] => destruct (server r) end;
    tidy_trace; reflexivity.
Qed.

Lemma CellAction_onDelete_run data params server (w : World unit unit) :
  let r := mkRequest DELETE
             ("/api/" ++ CellAction.storeId params ++ "/colors/" ++ CellAction.id data)
             None in
  run server (CellAction.onDelete data params w) =
  (Normal tt,
   mkWorld (values w) (errors w) false false
     (trace w ++ Http r ::
        (if server r
         then [ RouterRefresh; ToastSuccess "Tipe Obat Dihapus." ]
         else [ ToastError
                  "Pastikan anda sudah menghapus semua Obat yang menggunakan Tipe Obat ini." ]))).
Proof.
  destruct w as [v es o l t]. unfold CellAction.onDelete.
  run_handler;
    match goal with |- context [server ?r] => destruct (server r) end;
    tidy_trace; reflexivity.
Qed.

(** ** Reading the traces of the handlers *)

Lemma navigations_app {B : Type} (t u : list (Effect B)) :
  navigations (t ++ u) = (navigations t ++ navigations u)%list.
Proof. apply flat_map_app. Qed.

Lemma requests_app {B : Type} (t u : list (Effect B)) :
  requests (t ++ u) = (requests t ++ requests u)%list.
Proof. apply flat_map_app. Qed.

Lemma error_toasts_app {B : Type} (t u : list (Effect B)) :
  error_toasts (t ++ u) = (error_toasts t ++ error_toasts u)%list.
Proof. apply flat_map_app. Qed.

(** Rewrites a handler applied to a world into the world it returns and
    splits the readings of the trace. *)
Ltac read_trace :=
  cbv zeta;
  repeat first
    [ rewrite ProductForm_onSubmit_run | rewrite ProductForm_onDelete_run
    | rewrite CategoryForm_onSubmit_run | rewrite CategoryForm_onDelete_run
    | rewrite CellAction_onDelete_run ];
  cbn [snd fst trace values errors open loading];
  repeat first [ rewrite navigations_app | rewrite requests_app | rewrite error_toasts_app ].

(** ** Delete failures *)

(** C1. The delete flow of the product form does not show a message about
    dependent records when the DELETE request is rejected: it shows the
    generic failure text, the same one a failed submit shows. The category
    form and the colour row action show their own texts. *)
Theorem C1_product_delete_failure_is_generic
    (pparams : ProductForm.Params) (cparams : CategoryForm.Params)
    (data : CellAction.ColorColumn) (aparams : CellAction.Params)
    (initialData : option Prisma.Product.t)
    (d : ProductForm.ProductFormValues Js.number)
    (v : ProductForm.ProductFormValues Js.value)
    (c : CategoryForm.CategoryFormValues) :
  error_toasts (trace (snd (run (fun _ => false) (ProductForm.onDelete pparams (mount v)))))
    = [ "Ada sesuatu yang salah" ] /\
  error_toasts
    (trace (snd (run (fun _ => false)
                   (ProductForm.onSubmit initialData pparams d (mount v)))))
    = [ "Ada sesuatu yang salah" ] /\
  error_toasts (trace (snd (run (fun _ => false) (CategoryForm.onDelete cparams (mount c)))))
    = [ "Pastikan kamu sudah menghapus semua produk yang menggunakan kategori ini" ] /\
  error_toasts (trace (snd (run (fun _ => false) (CellAction.onDelete data aparams (mount tt)))))
    = [ "Pastikan anda sudah menghapus semua Obat yang menggunakan Tipe Obat ini." ].
Proof.
  repeat split; read_trace; reflexivity.
Qed.

(** ** Navigation after a submit or a delete *)

(** C3, as stated, fails on the colour row action: a DELETE that the server
    accepts is followed by a refresh and a toast, and by no navigation. *)
Lemma C3_color_delete_success_does_not_navigate :
  let data := CellAction.mkColorColumn "c1" "Tablet" "#0ea5e9" "1 Januari 2024" in
  let params := CellAction.mkParams "s1" in
  let w' := snd (run (fun _ => true) (CellAction.onDelete data params (mount tt))) in
  trace w' = [ Http (mkRequest DELETE "/api/s1/colors/c1" None);
               RouterRefresh;
               ToastSuccess "Tipe Obat Dihapus." ] /\
  navigations (trace w') = [] /\
  List.length (navigations (trace w')) <> 1%nat.
Proof.
  cbv zeta. rewrite CellAction_onDelete_run.
  repeat split. cbn. discriminate.
Qed.

(** C3 (amended). A submit or a delete of the product form or of the
    category form issues one request; when it succeeds exactly one navigation
    follows, to the resource's list route; when it fails no navigation
    follows. The delete of the colour row action issues one request and
    never navigates. In every case the field values are left as they
    were. *)
Theorem C3_navigation_after_request
    (pinit : option Prisma.Product.t) (pparams : ProductForm.Params)
    (pserver : @Server (ProductForm.ProductFormValues Js.number))
    (pdata : ProductForm.ProductFormValues Js.number)
    (pw : World (ProductForm.ProductFormValues Js.value) (ProductForm.ProductFormValues Js.number))
    (cinit : option Prisma.Category.t) (cparams : CategoryForm.Params)
    (cserver : @Server CategoryForm.CategoryFormValues)
    (cdata : CategoryForm.CategoryFormValues)
    (cw : World CategoryForm.CategoryFormValues CategoryForm.CategoryFormValues)
    (data : CellAction.ColorColumn) (aparams : CellAction.Params)
    (aserver : @Server unit) (aw : World unit unit) :
  (let w' := snd (run pserver (ProductForm.onSubmit pinit pparams pdata pw)) in
   exists r, requests (trace w') = (requests (trace pw) ++ [r])%list /\
     navigations (trace w') = (navigations (trace pw) ++
       (if pserver r
        then [("/" ++ ProductForm.storeId pparams ++ "/products")%string]
        else []))%list /\
     values w' = values pw) /\
  (let w' := snd (run pserver (ProductForm.onDelete pparams pw)) in
   exists r, requests (trace w') = (requests (trace pw) ++ [r])%list /\
     navigations (trace w') = (navigations (trace pw) ++
       (if pserver r
        then [("/" ++ ProductForm.storeId pparams ++ "/products")%string]
        else []))%list /\
     values w' = values pw) /\
  (let w' := snd (run cserver (CategoryForm.onSubmit cinit cparams cdata cw)) in
   exists r, requests (trace w') = (requests (trace cw) ++ [r])%list /\
     navigations (trace w') = (navigations (trace cw) ++
       (if cserver r
        then [("/" ++ CategoryForm.storeId cparams ++ "/categories")%string]
        else []))%list /\
     values w' = values cw) /\
  (let w' := snd (run cserver (CategoryForm.onDelete cparams cw)) in
   exists r, requests (trace w') = (requests (trace cw) ++ [r])%list /\
     navigations (trace w') = (navigations (trace cw) ++
       (if cserver r
        then [("/" ++ CategoryForm.storeId cparams ++ "/categories")%string]
        else []))%list /\
     values w' = values cw) /\
  (let w' := snd (run aserver (CellAction.onDelete data aparams aw)) in
   exists r, requests (trace w') = (requests (trace aw) ++ [r])%list /\
     navigations (trace w') = navigations (trace aw) /\
     values w' = values aw).
Proof.
  repeat apply conj; read_trace;
    match goal with |- context [Http ?r] => exists r; destruct (_ r) end;
    simpl; rewrite ?app_nil_r; repeat split; reflexivity.
Qed.

(** ** Create mode and edit mode *)

(** C6. In both forms the title, the description, the success message and
    the label of the submit button depend on [initialData] only through its
    being null or not; an edit form starts from the record's fields and its
    submit sends a PATCH to the record's URL; a create form starts from empty
    defaults and its submit sends a POST to the collection's URL. A
    successful submit shows the mode's success message. *)
Theorem C6_mode_is_selected_by_initialData
    (DecimalToString : Q -> string) (parseFloat : string -> Js.number)
    (p : Prisma.Product.t) (pparams : ProductForm.Params)
    (pserver : @Server (ProductForm.ProductFormValues Js.number))
    (pdata : ProductForm.ProductFormValues Js.number)
    (pv : ProductForm.ProductFormValues Js.value)
    (c : Prisma.Category.t) (cparams : CategoryForm.Params)
    (cserver : @Server CategoryForm.CategoryFormValues)
    (cdata cv : CategoryForm.CategoryFormValues) :
  (* the product form, edit mode *)
  ( ProductForm.title (Some p) = "Edit Produk" /\
    ProductForm.description (Some p) = "Edit produk" /\
    ProductForm.toastMessage (Some p) = "Produk di Perbarui." /\
    ProductForm.action (Some p) = "Simpan Perubahan" /\
    ProductForm.defaultValues DecimalToString parseFloat (Some p) =
      ProductForm.mkValues (Prisma.Product.name p) (Prisma.Product.images p)
        (Js.VNumber (parseFloat (DecimalToString (Prisma.Product.price p))))
        (Prisma.Product.categoryId p) (Prisma.Product.colorId p) (Prisma.Product.sizeId p)
        (Some (Prisma.Product.isFeatured p)) (Some (Prisma.Product.isArchived p)) /\
    let r := mkRequest PATCH
               ("/api/" ++ ProductForm.storeId pparams ++ "/products/"
                  ++ ProductForm.productId pparams) (Some pdata) in
    trace (snd (run pserver (ProductForm.onSubmit (Some p) pparams pdata (mount pv)))) =
      Http r ::
      (if pserver r
       then [ RouterRefresh;
              RouterPush ("/" ++ ProductForm.storeId pparams ++ "/products");
              ToastSuccess "Produk di Perbarui." ]
       else [ ToastError "Ada sesuatu yang salah" ]) ) /\
  (* the product form, create mode *)
  ( ProductForm.title None = "Buat Produk Baru" /\
    ProductForm.description None = "Buat Produk Baru" /\
    ProductForm.toastMessage None = "Produk berhasil dibuat" /\
    ProductForm.action None = "Buat Baru" /\
    ProductForm.defaultValues DecimalToString parseFloat None =
      ProductForm.mkValues "" [] (Js.VNumber (Js.Finite 0)) "" "" ""
        (Some false) (Some false) /\
    let r := mkRequest POST
               ("/api/" ++ ProductForm.storeId pparams ++ "/products") (Some pdata) in
    trace (snd (run pserver (ProductForm.onSubmit None pparams pdata (mount pv)))) =
      Http r ::
      (if pserver r
       then [ RouterRefresh;
              RouterPush ("/" ++ ProductForm.storeId pparams ++ "/products");
              ToastSuccess "Produk berhasil dibuat" ]
       else [ ToastError "Ada sesuatu yang salah" ]) ) /\
  (* the category form, edit mode *)
  ( CategoryForm.title (Some c) = "Edit Kategori" /\
    CategoryForm.description (Some c) = "Edit Kategori" /\
    CategoryForm.toastMessage (Some c) = "Kategori diperbarui." /\
    CategoryForm.action (Some c) = "Simpan perubahan" /\
    CategoryForm.defaultValues (Some c) =
      CategoryForm.mkValues (Prisma.Category.name c) (Prisma.Category.billboardId c) /\
    let r := mkRequest PATCH
               ("/api/" ++ CategoryForm.storeId cparams ++ "/categories/"
                  ++ CategoryForm.categoryId cparams) (Some cdata) in
    trace (snd (run cserver (CategoryForm.onSubmit (Some c) cparams cdata (mount cv)))) =
      Http r ::
      (if cserver r
       then [ RouterRefresh;
              RouterPush ("/" ++ CategoryForm.storeId cparams ++ "/categories");
              ToastSuccess "Kategori diperbarui." ]
       else [ ToastError "Ada sesuatu yang salah" ]) ) /\
  (* the category form, create mode *)
  ( CategoryForm.title None = "Buat Kategori" /\
    CategoryForm.description None = "Buat kategori yang baru" /\
    CategoryForm.toastMessage None = "Kategori berhasil dibuat" /\
    CategoryForm.action None = "Buat Baru" /\
    CategoryForm.defaultValues None = CategoryForm.mkValues "" "" /\
    let r := mkRequest POST
               ("/api/" ++ CategoryForm.storeId cparams ++ "/categories") (Some cdata) in
    trace (snd (run cserver (CategoryForm.onSubmit None cparams cdata (mount cv)))) =
      Http r ::
      (if cserver r
       then [ RouterRefresh;
              RouterPush ("/" ++ CategoryForm.storeId cparams ++ "/categories");
              ToastSuccess "Kategori berhasil dibuat" ]
       else [ ToastError "Ada sesuatu yang salah" ]) ).
Proof.
  repeat apply conj; try reflexivity;
    cbv zeta;
    first [ rewrite ProductForm_onSubmit_run | rewrite CategoryForm_onSubmit_run ];
    reflexivity.
Qed.

(** ** The loading flag after a handler has run *)

(** C7. Whatever the server answers and whatever the state before, when a
    submit or delete handler has run the loading flag is false; after a
    delete, failed or not, the confirmation modal is closed too; and every
    control that the form renders from that state is enabled. *)
Theorem C7_loading_reset_on_every_path
    (pinit : option Prisma.Product.t) (pparams : ProductForm.Params)
    (pserver : @Server (ProductForm.ProductFormValues Js.number))
    (pdata : ProductForm.ProductFormValues Js.number)
    (pw : World (ProductForm.ProductFormValues Js.value) (ProductForm.ProductFormValues Js.number))
    (cinit : option Prisma.Category.t) (cparams : CategoryForm.Params)
    (cserver : @Server CategoryForm.CategoryFormValues)
    (cdata : CategoryForm.CategoryFormValues)
    (cw : World CategoryForm.CategoryFormValues CategoryForm.CategoryFormValues)
    (data : CellAction.ColorColumn) (aparams : CellAction.Params)
    (aserver : @Server unit) (aw : World unit unit) :
  (let w' := snd (run pserver (ProductForm.onSubmit pinit pparams pdata pw)) in
   loading w' = false /\
   forallb (fun c => negb (disabled c)) (ProductForm.render pinit (loading w')) = true) /\
  (let w' := snd (run pserver (ProductForm.onDelete pparams pw)) in
   loading w' = false /\ open w' = false /\
   forallb (fun c => negb (disabled c)) (ProductForm.render pinit (loading w')) = true) /\
  (let w' := snd (run cserver (CategoryForm.onSubmit cinit cparams cdata cw)) in
   loading w' = false /\
   forallb (fun c => negb (disabled c)) (CategoryForm.render cinit (loading w')) = true) /\
  (let w' := snd (run cserver (CategoryForm.onDelete cparams cw)) in
   loading w' = false /\ open w' = false /\
   forallb (fun c => negb (disabled c)) (CategoryForm.render cinit (loading w')) = true) /\
  (let w' := snd (run aserver (CellAction.onDelete data aparams aw)) in
   loading w' = false /\ open w' = false).
Proof.
  (* the flags: by the [finally] block alone, whatever the body did *)
  assert (Hps : loading (snd (run pserver (ProductForm.onSubmit pinit pparams pdata pw))) = false)
    by apply finally_resets_loading.
  assert (Hcs : loading (snd (run cserver (CategoryForm.onSubmit cinit cparams cdata cw))) = false)
    by apply finally_resets_loading.
  pose proof (finally_resets_loading_and_open pserver _
                : let w' := snd (run pserver (ProductForm.onDelete pparams pw)) in _) as Hpd.
  pose proof (finally_resets_loading_and_open cserver _
                : let w' := snd (run cserver (CategoryForm.onDelete cparams cw)) in _) as Hcd.
  pose proof (finally_resets_loading_and_open aserver _
                : let w' := snd (run aserver (CellAction.onDelete data aparams aw)) in _) as Had.
  cbv zeta in *. destruct Hpd as [Hpd Hpo], Hcd as [Hcd Hco].
  rewrite Hps, Hcs, Hpd, Hcd.
  (* the controls rendered with [loading = false] *)
  assert (Hp : forallb (fun c => negb (disabled c)) (ProductForm.render pinit false) = true)
    by (destruct pinit; reflexivity).
  assert (Hc : forallb (fun c => negb (disabled c)) (CategoryForm.render cinit false) = true)
    by (destruct cinit; reflexivity).
  repeat apply conj; first [ reflexivity | assumption | apply Had ].
Qed.

(** ** Two scenarios *)

(** Deleting a colour that a product still uses: the server rejects the
    DELETE; the modal closes, the loading flag is false again, and the only
    message is the one asking to remove the products of that type first. *)
Theorem color_delete_rejected_scenario
    (data : CellAction.ColorColumn) (params : CellAction.Params) :
  run (fun _ => false)
    (CellAction.onDelete data params (mkWorld tt [] true false []))
  = (Normal tt,
     mkWorld tt [] false false
       [ Http (mkRequest DELETE
                 ("/api/" ++ CellAction.storeId params ++ "/colors/" ++ CellAction.id data)
                 None);
         ToastError
           "Pastikan anda sudah menghapus semua Obat yang menggunakan Tipe Obat ini." ]).
Proof.
  rewrite CellAction_onDelete_run. reflexivity.
Qed.

(** Submitting a create form that was left untouched: the empty defaults do
    not pass validation, so nothing is sent, in either form. *)
Theorem untouched_create_form_is_blocked
    (StringToNumber : string -> Js.number)
    (DecimalToString : Q -> string) (parseFloat : string -> Js.number)
    (pparams : ProductForm.Params)
    (pserver : @Server (ProductForm.ProductFormValues Js.number))
    (cparams : CategoryForm.Params)
    (cserver : @Server CategoryForm.CategoryFormValues) :
  trace (snd (run pserver
                (ProductForm.submit StringToNumber None pparams
                   (mount (ProductForm.defaultValues DecimalToString parseFloat None))))) = [] /\
  trace (snd (run cserver
                (CategoryForm.submit None cparams
                   (mount (CategoryForm.defaultValues None))))) = [].
Proof.
  split; reflexivity.
Qed.

(** ** Validation *)

Lemma field_errors_app (key : string) (es fs : list Zod.FieldError) :
  Zod.field_errors key (es ++ fs) = (Zod.field_errors key es ++ Zod.field_errors key fs)%list.
Proof. apply flat_map_app. Qed.

Lemma field_errors_at_key (key k : string) (issues : list Zod.issue) :
  Zod.field_errors key (Zod.at_key k issues) = if (k =? key) then issues else [].
Proof.
  unfold Zod.field_errors, Zod.at_key.
  induction issues as [|i issues IH]; cbn [map flat_map fst snd].
  - now destruct (k =? key).
  - rewrite IH. now destruct (k =? key).
Qed.

Lemma string_min_1_empty : Zod.string_min 1 "" = [Zod.too_small].
Proof. reflexivity. Qed.

Lemma string_min_1_nonempty (s : string) : s <> "" -> Zod.string_min 1 s = [].
Proof. destruct s; [congruence | reflexivity]. Qed.

Lemma array_of_strings_has_no_issue (images : list Prisma.Image) :
  Zod.array (fun i => Zod.string_ (Prisma.url i)) images = [].
Proof.
  unfold Zod.array. induction images as [|i images IH]; [reflexivity | exact IH].
Qed.

(** The minimum of the price, read as a comparison. *)
Lemma number_min_1_accepts (x : Js.number) :
  Zod.number_min 1 x = [] <-> Js.le (Js.Finite 1) x = true.
Proof.
  unfold Zod.number_min.
  destruct x as [| |q|]; cbn; try (split; [discriminate | discriminate]);
    try (split; reflexivity).
  destruct (Qle_bool 1 q); cbn; split; congruence.
Qed.

Ltac split_field_errors :=
  repeat rewrite field_errors_app; repeat rewrite field_errors_at_key;
  cbn [String.eqb Ascii.eqb Bool.eqb andb app]; rewrite ?app_nil_r.

Section ProductSchemaFacts.

Import ProductForm.
Variable StringToNumber : string -> Js.number.

Lemma product_name_errors v :
  Zod.field_errors "name" (formSchema_issues StringToNumber v) = Zod.string_min 1 (name v).
Proof. unfold formSchema_issues. split_field_errors. reflexivity. Qed.

Lemma product_images_errors v :
  Zod.field_errors "images" (formSchema_issues StringToNumber v) = [].
Proof.
  unfold formSchema_issues. split_field_errors.
  apply array_of_strings_has_no_issue.
Qed.

Lemma product_price_errors v :
  Zod.field_errors "price" (formSchema_issues StringToNumber v)
  = Zod.number_min 1 (Js.Number StringToNumber (price v)).
Proof. unfold formSchema_issues. split_field_errors. reflexivity. Qed.

Lemma product_categoryId_errors v :
  Zod.field_errors "categoryId" (formSchema_issues StringToNumber v)
  = Zod.string_min 1 (categoryId v).
Proof. unfold formSchema_issues. split_field_errors. reflexivity. Qed.

Lemma product_colorId_errors v :
  Zod.field_errors "colorId" (formSchema_issues StringToNumber v)
  = Zod.string_min 1 (colorId v).
Proof. unfold formSchema_issues. split_field_errors. reflexivity. Qed.

Lemma product_sizeId_errors v :
  Zod.field_errors "sizeId" (formSchema_issues StringToNumber v)
  = Zod.string_min 1 (sizeId v).
Proof. unfold formSchema_issues. split_field_errors. reflexivity. Qed.

Lemma product_formSchema_rejects v :
  formSchema_issues StringToNumber v <> [] ->
  formSchema StringToNumber v = inl (formSchema_issues StringToNumber v).
Proof.
  unfold formSchema. destruct (formSchema_issues StringToNumber v); congruence.
Qed.

Lemma product_formSchema_accepts v :
  name v <> "" -> categoryId v <> "" -> colorId v <> "" -> sizeId v <> "" ->
  Js.le (Js.Finite 1) (Js.Number StringToNumber (price v)) = true ->
  formSchema StringToNumber v =
  inr (mkValues (name v) (images v) (Js.Number StringToNumber (price v))
         (categoryId v) (colorId v) (sizeId v) (isFeatured v) (isArchived v)).
Proof.
  intros Hn Hc Hk Hs Hp.
  unfold formSchema, formSchema_issues.
  rewrite !string_min_1_nonempty by assumption.
  rewrite array_of_strings_has_no_issue.
  apply number_min_1_accepts in Hp. rewrite Hp.
  reflexivity.
Qed.

Lemma product_empty_field_has_issue v :
  name v = "" \/ categoryId v = "" \/ colorId v = "" \/ sizeId v = "" \/
  Js.Number StringToNumber (price v) = Js.NaN \/
  Js.le (Js.Finite 1) (Js.Number StringToNumber (price v)) = false ->
  formSchema_issues StringToNumber v <> [].
Proof.
  intros H Hnil.
  pose proof (product_name_errors v) as Hn.
  pose proof (product_categoryId_errors v) as Hc.
  pose proof (product_colorId_errors v) as Hk.
  pose proof (product_sizeId_errors v) as Hs.
  pose proof (product_price_errors v) as Hp.
  rewrite Hnil in Hn, Hc, Hk, Hs, Hp. cbn in Hn, Hc, Hk, Hs, Hp.
  symmetry in Hp. apply number_min_1_accepts in Hp.
  destruct H as [E | [E | [E | [E | [E | E]]]]]; rewrite E in *; discriminate.
Qed.

End ProductSchemaFacts.

Section CategorySchemaFacts.

Import CategoryForm.

Lemma category_formSchema_rejects v :
  formSchema_issues v <> [] -> formSchema v = inl (formSchema_issues v).
Proof.
  unfold formSchema. destruct (formSchema_issues v); congruence.
Qed.

Lemma category_formSchema_accepts v :
  name v <> "" -> billboardId v <> "" -> formSchema v = inr v.
Proof.
  intros Hn Hb. unfold formSchema, formSchema_issues.
  rewrite !string_min_1_nonempty by assumption.
  destruct v; reflexivity.
Qed.

Lemma category_empty_field_has_issue v :
  name v = "" \/ billboardId v = "" -> formSchema_issues v <> [].
Proof.
  unfold formSchema_issues. intros [E | E]; rewrite E; rewrite string_min_1_empty.
  - discriminate.
  - destruct (Zod.string_min 1 (name v)); discriminate.
Qed.

End CategorySchemaFacts.

(** ** The price *)

(** C2, as stated, fails at the price 0.5: it coerces to a number greater
    than zero, yet the schema reports it as too small and the form is
    rejected. An edit form whose record has this price holds such a value. *)
Lemma C2_price_one_half_is_positive_and_rejected :
  let v := ProductForm.mkValues "Paracetamol" [] (Js.VNumber (Js.Finite (1 # 2)))
             "cat1" "col1" "size1" (Some false) (Some false) in
  (forall StringToNumber,
     Js.lt (Js.Finite 0) (Js.Number StringToNumber (ProductForm.price v)) = true) /\
  (forall StringToNumber,
     Zod.field_errors "price" (ProductForm.formSchema_issues StringToNumber v)
     = [Zod.too_small]) /\
  (forall StringToNumber,
     ProductForm.formSchema StringToNumber v = inl [("price", Zod.too_small)]).
Proof.
  cbv zeta. repeat split.
Qed.

(** C2 (amended). The schema accepts the price field exactly when the value
    coerces to a number that is at least 1: every such input has no issue at
    the price, and every other input (a NaN, or a number below 1) has one. *)
Theorem C2_price_accepted_iff_at_least_one
    (StringToNumber : string -> Js.number)
    (v : ProductForm.ProductFormValues Js.value) :
  Zod.field_errors "price" (ProductForm.formSchema_issues StringToNumber v) = [] <->
  Js.le (Js.Finite 1) (Js.Number StringToNumber (ProductForm.price v)) = true.
Proof.
  rewrite product_price_errors. apply number_min_1_accepts.
Qed.

(** ** Submissions that validation blocks *)

(** C5. When the name or a reference identifier of the product form is
    empty, or its price does not coerce to a number (or, more generally, not
    to a number that is at least 1, as for an empty price input, which
    coerces to 0), and likewise when the name or the billboard identifier of
    the category form is empty, the submit listener only records the issues
    as field errors: there is at least one, the result does not depend on the
    submit handler (it is not called), nothing is added to the trace (no
    request, no navigation, no toast) and the flags are untouched. *)
Theorem C5_invalid_submission_is_blocked
    (StringToNumber : string -> Js.number)
    (pinit : option Prisma.Product.t) (pparams : ProductForm.Params)
    (pw : World (ProductForm.ProductFormValues Js.value) (ProductForm.ProductFormValues Js.number))
    (cinit : option Prisma.Category.t) (cparams : CategoryForm.Params)
    (cw : World CategoryForm.CategoryFormValues CategoryForm.CategoryFormValues) :
  ( ProductForm.name (values pw) = "" \/
    ProductForm.categoryId (values pw) = "" \/
    ProductForm.colorId (values pw) = "" \/
    ProductForm.sizeId (values pw) = "" \/
    Js.Number StringToNumber (ProductForm.price (values pw)) = Js.NaN \/
    Js.le (Js.Finite 1) (Js.Number StringToNumber (ProductForm.price (values pw))) = false ->
    exists issues, issues <> [] /\
      (forall onValid,
         handleSubmit (ProductForm.formSchema StringToNumber) onValid pw
         = Done (Normal tt) (mkWorld (values pw) issues (open pw) (loading pw) (trace pw))) /\
      ProductForm.submit StringToNumber pinit pparams pw
      = Done (Normal tt) (mkWorld (values pw) issues (open pw) (loading pw) (trace pw)) ) /\
  ( CategoryForm.name (values cw) = "" \/
    CategoryForm.billboardId (values cw) = "" ->
    exists issues, issues <> [] /\
      (forall onValid,
         handleSubmit CategoryForm.formSchema onValid cw
         = Done (Normal tt) (mkWorld (values cw) issues (open cw) (loading cw) (trace cw))) /\
      CategoryForm.submit cinit cparams cw
      = Done (Normal tt) (mkWorld (values cw) issues (open cw) (loading cw) (trace cw)) ).
Proof.
  split; intro H.
  - apply (product_empty_field_has_issue StringToNumber) in H.
    exists (ProductForm.formSchema_issues StringToNumber (values pw)).
    split; [exact H |].
    assert (Hall : forall onValid,
               handleSubmit (ProductForm.formSchema StringToNumber) onValid pw
               = Done (Normal tt)
                   (mkWorld (values pw)
                      (ProductForm.formSchema_issues StringToNumber (values pw))
                      (open pw) (loading pw) (trace pw))).
    { intro onValid. unfold handleSubmit.
      rewrite (product_formSchema_rejects StringToNumber _ H). reflexivity. }
    split; [exact Hall | apply Hall].
  - apply category_empty_field_has_issue in H.
    exists (CategoryForm.formSchema_issues (values cw)).
    split; [exact H |].
    assert (Hall : forall onValid,
               handleSubmit CategoryForm.formSchema onValid cw
               = Done (Normal tt)
                   (mkWorld (values cw) (CategoryForm.formSchema_issues (values cw))
                      (open cw) (loading cw) (trace cw))).
    { intro onValid. unfold handleSubmit.
      rewrite (category_formSchema_rejects _ H). reflexivity. }
    split; [exact Hall | apply Hall].
Qed.

(** A product form with an empty name and a category form with no billboard
    chosen: both submissions stop at validation. *)
Lemma C5_invalid_submission_is_blocked_witness :
  let pw := mount (ProductForm.mkValues "" [] (Js.VNumber (Js.Finite 15000))
                     "cat1" "col1" "size1" (Some false) (Some false)) in
  let cw := mount (CategoryForm.mkValues "Vitamins" "") in
  (exists issues, issues <> [] /\
     ProductForm.submit (fun _ => Js.NaN) None (ProductForm.mkParams "s1" "new") pw
     = Done (Normal tt) (mkWorld (values pw) issues false false [])) /\
  (exists issues, issues <> [] /\
     CategoryForm.submit None (CategoryForm.mkParams "s1" "new") cw
     = Done (Normal tt) (mkWorld (values cw) issues false false [])).
Proof.
  cbv zeta.
  destruct (C5_invalid_submission_is_blocked
              (fun _ => Js.NaN) None (ProductForm.mkParams "s1" "new")
              (mount (ProductForm.mkValues "" [] (Js.VNumber (Js.Finite 15000))
                        "cat1" "col1" "size1" (Some false) (Some false)))
              None (CategoryForm.mkParams "s1" "new")
              (mount (CategoryForm.mkValues "Vitamins" ""))) as [Hp Hc].
  split.
  - destruct Hp as [issues [Hne [_ Hrun]]]; [left; reflexivity |].
    exists issues. split; [exact Hne | exact Hrun].
  - destruct Hc as [issues [Hne [_ Hrun]]]; [right; reflexivity |].
    exists issues. split; [exact Hne | exact Hrun].
Defined.

(** ** Creating a category *)

(** C8. Submitting the category create form with the name "Vitamins" and a
    non-empty billboard identifier issues exactly one request, a POST to
    /api/{storeId}/categories with the body {name: "Vitamins", billboardId};
    when the server accepts it, a refresh, a navigation to
    /{storeId}/categories and the success message follow, in this order. *)
Theorem C8_create_category_vitamins
    (params : CategoryForm.Params) (server : @Server CategoryForm.CategoryFormValues)
    (billboardId : string) :
  billboardId <> "" ->
  let data := CategoryForm.mkValues "Vitamins" billboardId in
  let r := mkRequest POST ("/api/" ++ CategoryForm.storeId params ++ "/categories")
             (Some data) in
  let w' := snd (run server (CategoryForm.submit None params (mount data))) in
  requests (trace w') = [r] /\
  trace w' =
    Http r ::
    (if server r
     then [ RouterRefresh;
            RouterPush ("/" ++ CategoryForm.storeId params ++ "/categories");
            ToastSuccess "Kategori berhasil dibuat" ]
     else [ ToastError "Ada sesuatu yang salah" ]) /\
  (server r = true ->
   navigations (trace w') = [ "/" ++ CategoryForm.storeId params ++ "/categories" ]).
Proof.
  intros Hb data r w'.
  assert (Htrace : trace w' =
            Http r ::
            (if server r
             then [ RouterRefresh;
                    RouterPush ("/" ++ CategoryForm.storeId params ++ "/categories");
                    ToastSuccess "Kategori berhasil dibuat" ]
             else [ ToastError "Ada sesuatu yang salah" ])).
  { subst w'. unfold CategoryForm.submit, handleSubmit.
    rewrite category_formSchema_accepts by (cbn; congruence).
    unfold bind, setErrors. cbn [then_ mount values errors open loading trace].
    rewrite CategoryForm_onSubmit_run. reflexivity. }
  rewrite Htrace. repeat split.
  - destruct (server r); reflexivity.
  - intros ->. reflexivity.
Qed.

Lemma C8_create_category_vitamins_witness :
  let params := CategoryForm.mkParams "s1" "new" in
  let data := CategoryForm.mkValues "Vitamins" "bb1" in
  let w' := snd (run (fun _ => true) (CategoryForm.submit None params (mount data))) in
  requests (trace w') = [ mkRequest POST "/api/s1/categories" (Some data) ] /\
  navigations (trace w') = [ "/s1/categories" ].
Proof.
  cbv zeta.
  destruct (C8_create_category_vitamins
              (CategoryForm.mkParams "s1" "new") (fun _ => true) "bb1")
    as [Hreq [_ Hnav]]; [discriminate |].
  split; [exact Hreq | exact (Hnav eq_refl)].
Defined.

(** ** The images of a product *)

(** C9. The schema of the product form never reports an issue at the
    images, whatever the list; in particular a submission whose other fields
    are valid and whose list of images is empty passes validation, and its
    submit issues a request whose body carries the empty list. *)
Theorem C9_empty_images_pass_validation
    (StringToNumber : string -> Js.number)
    (pinit : option Prisma.Product.t) (params : ProductForm.Params)
    (server : @Server (ProductForm.ProductFormValues Js.number))
    (v : ProductForm.ProductFormValues Js.value) :
  Zod.field_errors "images" (ProductForm.formSchema_issues StringToNumber v) = [] /\
  ( ProductForm.name v <> "" ->
    ProductForm.categoryId v <> "" ->
    ProductForm.colorId v <> "" ->
    ProductForm.sizeId v <> "" ->
    Js.le (Js.Finite 1) (Js.Number StringToNumber (ProductForm.price v)) = true ->
    ProductForm.images v = [] ->
    exists data,
      ProductForm.formSchema StringToNumber v = inr data /\
      ProductForm.images data = [] /\
      exists r,
        requests (trace (snd (run server
                                (ProductForm.submit StringToNumber pinit params (mount v)))))
        = [r] /\
        body r = Some data ).
Proof.
  split; [apply product_images_errors |].
  intros Hn Hc Hk Hs Hp Hi.
  pose proof (product_formSchema_accepts StringToNumber v Hn Hc Hk Hs Hp) as Hok.
  eexists. split; [exact Hok |]. split; [exact Hi |].
  unfold ProductForm.submit, handleSubmit. cbn [mount values]. rewrite Hok.
  unfold bind, setErrors. cbn [then_ mount values errors open loading trace].
  rewrite ProductForm_onSubmit_run. cbn [snd trace app].
  match goal with |- context [Http ?r] => exists r end.
  split.
  - destruct pinit;
      match goal with |- context [server ?q] => destruct (server q) end; reflexivity.
  - destruct pinit; reflexivity.
Qed.

Lemma C9_empty_images_pass_validation_witness :
  let v := ProductForm.mkValues "Paracetamol" [] (Js.VNumber (Js.Finite 15000))
             "cat1" "col1" "size1" (Some false) (Some false) in
  exists data,
    ProductForm.formSchema (fun _ => Js.NaN) v = inr data /\
    ProductForm.images data = [] /\
    exists r,
      requests (trace (snd (run (fun _ => true)
                              (ProductForm.submit (fun _ => Js.NaN) None
                                 (ProductForm.mkParams "s1" "new") (mount v)))))
      = [r] /\
      body r = Some data.
Proof.
  cbv zeta.
  apply (C9_empty_images_pass_validation (fun _ => Js.NaN) None
           (ProductForm.mkParams "s1" "new") (fun _ => true));
    solve [ discriminate | reflexivity ].
Defined.

(** ** Requests in flight *)

Section SingleFlight.

Context {V B : Type}.
Variable view : World V B -> list Control.
Variable listener : ControlKind -> M V B unit.

(** While the loading flag is set, a control that can still be operated has
    a listener that sends nothing and leaves the flag set. *)
Hypothesis quiet_while_loading :
  forall c w, loading w = true -> enabled c (view w) = true ->
    exists cpl w', listener c w = Done cpl w' /\ loading w' = true.

(** Started with the flag not set, a listener either completes at once and
    leaves it so, or sets the flag, sends one request and is suspended until
    the request settles; then it finishes and resets the flag. *)
Hypothesis at_most_one_request :
  forall c w, loading w = false ->
    (exists cpl w', listener c w = Done cpl w' /\ loading w' = false) \/
    (exists r w' resume,
       listener c w = Await r w' resume /\ loading w' = true /\ finishes resume).

Lemma step_single_flight (s s' : Session V B) (e : Event V) :
  single_flight s -> step view listener s e = Some s' -> single_flight s'.
Proof.
  intros Hs Hstep. destruct e as [c | field change | i ok]; cbn [step] in Hstep.
  - (* a click *)
    destruct (enabled c (view (world s))) eqn:Hen; [| discriminate].
    injection Hstep as <-.
    destruct Hs as [[Hnil Hidle] | [resume [Hone [Hfin Hload]]]].
    + rewrite Hnil.
      destruct (at_most_one_request c (world s) Hidle)
        as [[cpl [w' [Hrun Hidle']]] | [r [w' [resume [Hrun [Hload Hfin]]]]]];
        rewrite Hrun; cbn [suspend].
      * left. cbn. auto.
      * right. exists resume. cbn. auto.
    + destruct (quiet_while_loading c (world s) Hload Hen) as [cpl [w' [Hrun Hload']]].
      rewrite Hrun, Hone. cbn [suspend].
      right. exists resume. cbn. auto.
  - (* an edit *)
    destruct (enabled (Field field) (view (world s))); [| discriminate].
    injection Hstep as <-.
    destruct Hs as [[Hnil Hidle] | [resume [Hone [Hfin Hload]]]].
    + left. cbn. auto.
    + right. exists resume. cbn. auto.
  - (* a request settles *)
    destruct Hs as [[Hnil Hidle] | [resume [Hone [Hfin Hload]]]].
    + rewrite Hnil in Hstep. destruct i; discriminate.
    + rewrite Hone in Hstep.
      destruct i as [|i]; cbn in Hstep; [| destruct i; discriminate].
      injection Hstep as <-.
      destruct (Hfin ok (world s)) as [cpl [w' [Hrun Hidle]]]. rewrite Hrun.
      left. cbn. auto.
Qed.

Lemma steps_single_flight (es : list (Event V)) :
  forall s s', single_flight s -> steps view listener s es = Some s' -> single_flight s'.
Proof.
  induction es as [|e es IH]; intros s s' Hs Hsteps; cbn [steps] in Hsteps.
  - injection Hsteps as <-. exact Hs.
  - destruct (step view listener s e) as [s1|] eqn:Hstep; [| discriminate].
    apply (IH s1 s'); [| exact Hsteps].
    exact (step_single_flight s s1 e Hs Hstep).
Qed.

Lemma single_flight_bound (s : Session V B) :
  single_flight s ->
  (List.length (inflight s) = 0%nat /\ loading (world s) = false) \/
  (List.length (inflight s) = 1%nat /\ loading (world s) = true).
Proof.
  intros [[Hnil Hidle] | [resume [Hone [_ Hload]]]].
  - left. rewrite Hnil. auto.
  - right. rewrite Hone. auto.
Qed.

End SingleFlight.

(** Unfolds a listener down to its first suspension. *)
Ltac start_handler :=
  cbv [try_catch_finally finally_ catch_ rethrow bind then_ ret emit
       setLoading setOpen setErrors
       axios axios_post axios_patch axios_delete
       router_refresh router_push toast_success toast_error
       values errors open loading trace].

Ltac completes_at_once :=
  left; do 2 eexists; split; [reflexivity | cbn; assumption].

Ltac sends_one_request :=
  right; do 3 eexists;
  split; [reflexivity |];
  split; [reflexivity |];
  intros [|] ?; do 2 eexists; split; reflexivity.

Section ProductFormSession.

Variable StringToNumber : string -> Js.number.
Variable initialData : option Prisma.Product.t.
Variable params : ProductForm.Params.

Lemma ProductForm_quiet_while_loading c w :
  loading w = true ->
  enabled c (ProductForm.view initialData w) = true ->
  exists cpl w',
    ProductForm.listener StringToNumber initialData params c w = Done cpl w' /\
    loading w' = true.
Proof.
  intros Hload Hen. unfold ProductForm.view in Hen. rewrite Hload in Hen.
  destruct c as [f | | | |]; cbn [ProductForm.listener].
  - exists (Normal tt), w. split; [reflexivity | exact Hload].
  - destruct initialData, (open w); discriminate Hen.
  - destruct initialData, (open w); discriminate Hen.
  - destruct initialData, (open w); discriminate Hen.
  - do 2 eexists. split; [reflexivity | exact Hload].
Qed.

Lemma ProductForm_at_most_one_request c w :
  loading w = false ->
  (exists cpl w',
     ProductForm.listener StringToNumber initialData params c w = Done cpl w' /\
     loading w' = false) \/
  (exists r w' resume,
     ProductForm.listener StringToNumber initialData params c w = Await r w' resume /\
     loading w' = true /\ finishes resume).
Proof.
  intro Hidle.
  destruct c as [f | | | |]; cbn [ProductForm.listener]; try completes_at_once.
  - unfold ProductForm.submit, handleSubmit.
    destruct (ProductForm.formSchema StringToNumber (values w)) as [issues | data];
      [completes_at_once |].
    unfold ProductForm.onSubmit.
    destruct initialData; start_handler; sends_one_request.
  - unfold ProductForm.onDelete. start_handler. sends_one_request.
Qed.

End ProductFormSession.

Section CategoryFormSession.

Variable initialData : option Prisma.Category.t.
Variable params : CategoryForm.Params.

Lemma CategoryForm_quiet_while_loading c w :
  loading w = true ->
  enabled c (CategoryForm.view initialData w) = true ->
  exists cpl w',
    CategoryForm.listener initialData params c w = Done cpl w' /\ loading w' = true.
Proof.
  intros Hload Hen. unfold CategoryForm.view in Hen. rewrite Hload in Hen.
  destruct c as [f | | | |]; cbn [CategoryForm.listener].
  - exists (Normal tt), w. split; [reflexivity | exact Hload].
  - destruct initialData, (open w); discriminate Hen.
  - destruct initialData, (open w); discriminate Hen.
  - destruct initialData, (open w); discriminate Hen.
  - do 2 eexists. split; [reflexivity | exact Hload].
Qed.

Lemma CategoryForm_at_most_one_request c w :
  loading w = false ->
  (exists cpl w',
     CategoryForm.listener initialData params c w = Done cpl w' /\ loading w' = false) \/
  (exists r w' resume,
     CategoryForm.listener initialData params c w = Await r w' resume /\
     loading w' = true /\ finishes resume).
Proof.
  intro Hidle.
  destruct c as [f | | | |]; cbn [CategoryForm.listener]; try completes_at_once.
  - unfold CategoryForm.submit, handleSubmit.
    destruct (CategoryForm.formSchema (values w)) as [issues | data];
      [completes_at_once |].
    unfold CategoryForm.onSubmit.
    destruct initialData; start_handler; sends_one_request.
  - unfold CategoryForm.onDelete. start_handler. sends_one_request.
Qed.

End CategoryFormSession.

(** From the moment a form is mounted, whatever the user does and however
    the requests settle, at most one request of the form is in flight, and
    the loading flag is set exactly while one is. Events are taken one at a
    time, the form being rendered again in between. *)
Theorem forms_have_at_most_one_request_in_flight
    (StringToNumber : string -> Js.number)
    (pinit : option Prisma.Product.t) (pparams : ProductForm.Params)
    (pv : ProductForm.ProductFormValues Js.value)
    (pes : list (Event (ProductForm.ProductFormValues Js.value)))
    (cinit : option Prisma.Category.t) (cparams : CategoryForm.Params)
    (cv : CategoryForm.CategoryFormValues)
    (ces : list (Event CategoryForm.CategoryFormValues)) :
  match steps (ProductForm.view pinit)
              (ProductForm.listener StringToNumber pinit pparams)
              (mkSession (mount pv) []) pes with
  | Some s =>
      (List.length (inflight s) = 0%nat /\ loading (world s) = false) \/
      (List.length (inflight s) = 1%nat /\ loading (world s) = true)
  | None => True
  end /\
  match steps (CategoryForm.view cinit) (CategoryForm.listener cinit cparams)
              (mkSession (mount cv) []) ces with
  | Some s =>
      (List.length (inflight s) = 0%nat /\ loading (world s) = false) \/
      (List.length (inflight s) = 1%nat /\ loading (world s) = true)
  | None => True
  end.
Proof.
  split.
  - destruct (steps _ _ _ pes) as [s|] eqn:Hsteps; [| exact I].
    apply single_flight_bound.
    eapply (steps_single_flight _ _
              (ProductForm_quiet_while_loading StringToNumber pinit pparams)
              (ProductForm_at_most_one_request StringToNumber pinit pparams));
      [| exact Hsteps].
    left. split; reflexivity.
  - destruct (steps _ _ _ ces) as [s|] eqn:Hsteps; [| exact I].
    apply single_flight_bound.
    eapply (steps_single_flight _ _
              (CategoryForm_quiet_while_loading cinit cparams)
              (CategoryForm_at_most_one_request cinit cparams));
      [| exact Hsteps].
    left. split; reflexivity.
Qed.

(** ** Controls while a request is pending *)

(** C4. While the loading flag is set, the product form still renders its
    two checkbox fields enabled: not every field control is disabled. The
    buttons of the product form and every other field are disabled, and so
    is every control of the category form. In a session of the product
    form, once a valid submit has been clicked and while its request is in
    flight, a second click on submit and an edit of the name are refused,
    and an edit of the isFeatured checkbox goes through. *)
Theorem C4_product_checkboxes_enabled_while_loading
    (pinit : option Prisma.Product.t) (cinit : option Prisma.Category.t) :
  In (mkControl (Field "isFeatured") false) (ProductForm.render pinit true) /\
  In (mkControl (Field "isArchived") false) (ProductForm.render pinit true) /\
  map kind (filter (fun c => negb (disabled c)) (ProductForm.render pinit true))
    = [ Field "isFeatured"; Field "isArchived" ] /\
  forallb disabled (CategoryForm.render cinit true) = true /\
  let v := ProductForm.mkValues "Paracetamol" [] (Js.VNumber (Js.Finite 15000))
             "cat1" "col1" "size1" (Some false) (Some false) in
  let feature := fun u : ProductForm.ProductFormValues Js.value =>
    ProductForm.mkValues (ProductForm.name u) (ProductForm.images u) (ProductForm.price u)
      (ProductForm.categoryId u) (ProductForm.colorId u) (ProductForm.sizeId u)
      (Some true) (ProductForm.isArchived u) in
  let session :=
    steps (ProductForm.view None)
      (ProductForm.listener (fun _ => Js.NaN) None (ProductForm.mkParams "s1" "new"))
      (mkSession (mount v) []) in
  (exists s, session [Click SubmitButton] = Some s /\
     List.length (inflight s) = 1%nat /\ loading (world s) = true) /\
  session [Click SubmitButton; Click SubmitButton] = None /\
  session [Click SubmitButton; Edit "name" feature] = None /\
  (exists s, session [Click SubmitButton; Edit "isFeatured" feature] = Some s /\
     List.length (inflight s) = 1%nat /\ loading (world s) = true /\
     ProductForm.isFeatured (values (world s)) = Some true).
Proof.
  split; [destruct pinit; cbn; intuition |].
  split; [destruct pinit; cbn; intuition |].
  split; [destruct pinit; reflexivity |].
  split; [destruct cinit; reflexivity |].
  cbv zeta. repeat split.
  - eexists. split; [reflexivity |]. split; reflexivity.
  - eexists. split; [reflexivity |]. repeat split.
Qed.

(** ** The images of the product form *)

Section ImageUploadFacts.

Import ProductForm.
Context {P : Type}.

Lemma urls_of_filter (u : string) (imgs : list Prisma.Image) :
  map (fun image => Prisma.url image)
      (filter (fun current => negb (Prisma.url current =? u)) imgs)
  = filter (fun x => negb (x =? u)) (map (fun image => Prisma.url image) imgs).
Proof.
  induction imgs as [|i imgs IH]; [reflexivity |].
  cbn [map filter]. destruct (Prisma.url i =? u); cbn [negb map]; now rewrite IH.
Qed.

Lemma filter_absent (u : string) (imgs : list Prisma.Image) :
  ~ In u (map (fun image => Prisma.url image) imgs) ->
  filter (fun current => negb (Prisma.url current =? u)) imgs = imgs.
Proof.
  induction imgs as [|i imgs IH]; intro Hnot; [reflexivity |].
  cbn [filter]. destruct (Prisma.url i =? u) eqn:E.
  - exfalso. apply Hnot. left. now apply String.eqb_eq.
  - cbn [negb]. f_equal. apply IH. intro Hin. apply Hnot. right. exact Hin.
Qed.

Lemma remove_after_add (u : string) (v : ProductFormValues P) :
  ImageUpload_onRemove u (ImageUpload_onChange u v) = ImageUpload_onRemove u v.
Proof.
  unfold ImageUpload_onRemove, ImageUpload_onChange, images_field_onChange.
  cbn [images name price categoryId colorId sizeId isFeatured isArchived].
  rewrite filter_app. cbn [filter Prisma.url]. rewrite String.eqb_refl.
  cbn [negb]. now rewrite app_nil_r.
Qed.

Lemma remove_absent (u : string) (v : ProductFormValues P) :
  ~ In u (ImageUpload_value v) -> ImageUpload_onRemove u v = v.
Proof.
  intro Hnot. unfold ImageUpload_onRemove, images_field_onChange.
  rewrite (filter_absent u (images v) Hnot). now destruct v.
Qed.

End ImageUploadFacts.

(** Removing an image by its URL removes every entry with that URL and
    nothing else: the URLs shown afterwards are the URLs shown before, in the
    same order, without that URL; the URL is no longer shown; removing again
    changes nothing; two removals can be done in either order; and no other
    field of the form is touched. *)
Theorem image_remove_drops_every_occurrence
    {P : Type} (u u' : string) (v : ProductForm.ProductFormValues P) :
  ProductForm.ImageUpload_value (ProductForm.ImageUpload_onRemove u v)
    = filter (fun x => negb (x =? u)) (ProductForm.ImageUpload_value v) /\
  ~ In u (ProductForm.ImageUpload_value (ProductForm.ImageUpload_onRemove u v)) /\
  ProductForm.ImageUpload_onRemove u (ProductForm.ImageUpload_onRemove u v)
    = ProductForm.ImageUpload_onRemove u v /\
  ProductForm.ImageUpload_onRemove u (ProductForm.ImageUpload_onRemove u' v)
    = ProductForm.ImageUpload_onRemove u' (ProductForm.ImageUpload_onRemove u v) /\
  ProductForm.images_field_onChange (ProductForm.images v)
    (ProductForm.ImageUpload_onRemove u v) = v.
Proof.
  assert (Hval : ProductForm.ImageUpload_value (ProductForm.ImageUpload_onRemove u v)
                 = filter (fun x => negb (x =? u)) (ProductForm.ImageUpload_value v))
    by apply urls_of_filter.
  assert (Hnot : ~ In u (ProductForm.ImageUpload_value (ProductForm.ImageUpload_onRemove u v))).
  { rewrite Hval. intro Hin. apply filter_In in Hin. destruct Hin as [_ Hne].
    rewrite String.eqb_refl in Hne. discriminate. }
  split; [exact Hval |]. split; [exact Hnot |].
  split; [apply remove_absent; exact Hnot |].
  split; [| now destruct v].
  unfold ProductForm.ImageUpload_onRemove, ProductForm.images_field_onChange.
  cbn [ProductForm.images ProductForm.name ProductForm.price ProductForm.categoryId
       ProductForm.colorId ProductForm.sizeId ProductForm.isFeatured ProductForm.isArchived].
  f_equal.
  induction (ProductForm.images v) as [|i imgs IH]; [reflexivity |].
  cbn [filter].
  destruct (Prisma.url i =? u') eqn:E', (Prisma.url i =? u) eqn:E;
    cbn [negb filter]; rewrite ?E, ?E'; cbn [negb]; now rewrite IH.
Qed.

(** Adding an image and removing it again: when its URL was not in the list
    the form is back to what it was; in general the result is that of the
    removal alone, so entries that already had this URL are lost with it. *)
Theorem image_add_then_remove
    {P : Type} (u : string) (v : ProductForm.ProductFormValues P) :
  ProductForm.ImageUpload_onRemove u (ProductForm.ImageUpload_onChange u v)
    = ProductForm.ImageUpload_onRemove u v /\
  (~ In u (ProductForm.ImageUpload_value v) ->
   ProductForm.ImageUpload_onRemove u (ProductForm.ImageUpload_onChange u v) = v).
Proof.
  split; [apply remove_after_add |].
  intro Hnot. rewrite remove_after_add. now apply remove_absent.
Qed.

Lemma image_add_then_remove_witness :
  let v := ProductForm.mkValues "Paracetamol" [Prisma.mkImage "https://img/a.png"]
             (Js.VNumber (Js.Finite 15000)) "cat1" "col1" "size1"
             (Some false) (Some false) in
  ProductForm.ImageUpload_onRemove "https://img/b.png"
    (ProductForm.ImageUpload_onChange "https://img/b.png" v) = v.
Proof.
  cbv zeta.
  apply (image_add_then_remove "https://img/b.png").
  cbn. intros [H | []]. discriminate H.
Defined.

(** Adding or removing an image never changes what validation reports:
    the issues of the form are the same before and after. *)
Theorem image_edits_leave_validation_unchanged
    (StringToNumber : string -> Js.number) (u : string)
    (v : ProductForm.ProductFormValues Js.value) :
  ProductForm.formSchema_issues StringToNumber (ProductForm.ImageUpload_onChange u v)
    = ProductForm.formSchema_issues StringToNumber v /\
  ProductForm.formSchema_issues StringToNumber (ProductForm.ImageUpload_onRemove u v)
    = ProductForm.formSchema_issues StringToNumber v.
Proof.
  unfold ProductForm.formSchema_issues, ProductForm.ImageUpload_onChange,
    ProductForm.ImageUpload_onRemove, ProductForm.images_field_onChange.
  cbn [ProductForm.images ProductForm.name ProductForm.price ProductForm.categoryId
       ProductForm.colorId ProductForm.sizeId].
  rewrite !array_of_strings_has_no_issue. split; reflexivity.
Qed.

(** ** The handlers, step by step *)

(** Where each handler is suspended and what it does when it is resumed, in
    whatever world that happens. *)

Ltac first_suspension :=
  eexists; split; [reflexivity |];
  intros [|] [v' e' o' l' t']; start_handler; tidy_trace; reflexivity.

Lemma ProductForm_onSubmit_start initialData params data
    (w : World (ProductForm.ProductFormValues Js.value) (ProductForm.ProductFormValues Js.number)) :
  let r := match initialData with
           | Some _ => mkRequest PATCH
                         ("/api/" ++ ProductForm.storeId params ++ "/products/"
                            ++ ProductForm.productId params) (Some data)
           | None => mkRequest POST
                         ("/api/" ++ ProductForm.storeId params ++ "/products") (Some data)
           end in
  exists resume,
    ProductForm.onSubmit initialData params data w
    = Await r (mkWorld (values w) (errors w) (open w) true (trace w ++ [Http r])) resume /\
    forall ok w',
      resume ok w'
      = Done (Normal tt)
          (mkWorld (values w') (errors w') (open w') false
             (trace w' ++
                if ok
                then [ RouterRefresh;
                       RouterPush ("/" ++ ProductForm.storeId params ++ "/products");
                       ToastSuccess (ProductForm.toastMessage initialData) ]
                else [ ToastError "Ada sesuatu yang salah" ])).
Proof.
  destruct w as [v e o l t]. unfold ProductForm.onSubmit.
  destruct initialData; start_handler; first_suspension.
Qed.

Lemma ProductForm_onDelete_start params
    (w : World (ProductForm.ProductFormValues Js.value) (ProductForm.ProductFormValues Js.number)) :
  let r := mkRequest DELETE
             ("/api/" ++ ProductForm.storeId params ++ "/products/"
                ++ ProductForm.productId params) None in
  exists resume,
    ProductForm.onDelete params w
    = Await r (mkWorld (values w) (errors w) (open w) true (trace w ++ [Http r])) resume /\
    forall ok w',
      resume ok w'
      = Done (Normal tt)
          (mkWorld (values w') (errors w') false false
             (trace w' ++
                if ok
                then [ RouterRefresh;
                       RouterPush ("/" ++ ProductForm.storeId params ++ "/products");
                       ToastSuccess "Produk dihapus" ]
                else [ ToastError "Ada sesuatu yang salah" ])).
Proof.
  destruct w as [v e o l t]. unfold ProductForm.onDelete.
  start_handler; first_suspension.
Qed.

Lemma CategoryForm_onSubmit_start initialData params data
    (w : World CategoryForm.CategoryFormValues CategoryForm.CategoryFormValues) :
  let r := match initialData with
           | Some _ => mkRequest PATCH
                         ("/api/" ++ CategoryForm.storeId params ++ "/categories/"
                            ++ CategoryForm.categoryId params) (Some data)
           | None => mkRequest POST
                         ("/api/" ++ CategoryForm.storeId params ++ "/categories") (Some data)
           end in
  exists resume,
    CategoryForm.onSubmit initialData params data w
    = Await r (mkWorld (values w) (errors w) (open w) true (trace w ++ [Http r])) resume /\
    forall ok w',
      resume ok w'
      = Done (Normal tt)
          (mkWorld (values w') (errors w') (open w') false
             (trace w' ++
                if ok
                then [ RouterRefresh;
                       RouterPush ("/" ++ CategoryForm.storeId params ++ "/categories");
                       ToastSuccess (CategoryForm.toastMessage initialData) ]
                else [ ToastError "Ada sesuatu yang salah" ])).
Proof.
  destruct w as [v e o l t]. unfold CategoryForm.onSubmit.
  destruct initialData; start_handler; first_suspension.
Qed.

Lemma CategoryForm_onDelete_start params
    (w : World CategoryForm.CategoryFormValues CategoryForm.CategoryFormValues) :
  let r := mkRequest DELETE
             ("/api/" ++ CategoryForm.storeId params ++ "/categories/"
                ++ CategoryForm.categoryId params) None in
  exists resume,
    CategoryForm.onDelete params w
    = Await r (mkWorld (values w) (errors w) (open w) true (trace w ++ [Http r])) resume /\
    forall ok w',
      resume ok w'
      = Done (Normal tt)
          (mkWorld (values w') (errors w') false false
             (trace w' ++
                if ok
                then [ RouterRefresh;
                       RouterPush ("/" ++ CategoryForm.storeId params ++ "/categories");
                       ToastSuccess "Kategori dihapus." ]
                else [ ToastError
                         "Pastikan kamu sudah menghapus semua produk yang menggunakan kategori ini" ])).
Proof.
  destruct w as [v e o l t]. unfold CategoryForm.onDelete.
  start_handler; first_suspension.
Qed.

(** ** Properties kept by every session *)

Section SessionInvariant.

Context {V B : Type}.
Variable view : World V B -> list Control.
Variable listener : ControlKind -> M V B unit.
Variable P : World V B -> Prop.

(** Every listener that can be reached from a world with [P] keeps [P]. *)
Hypothesis listeners_keep :
  forall c w, P w -> enabled c (view w) = true -> holds_along P (listener c w).

(** [P] does not depend on the field values. *)
Hypothesis edits_keep :
  forall w v, P w -> P (mkWorld v (errors w) (open w) (loading w) (trace w)).

Lemma suspend_kept (x : Run V B unit) pending :
  holds_along P x ->
  Forall (fun resume => forall ok w', P w' -> holds_along P (resume ok w')) pending ->
  kept P (suspend x pending).
Proof.
  intros Hx Hpending. destruct x as [c w | r w resume]; cbn in *.
  - split; assumption.
  - destruct Hx as [Hw Hresume]. split; [exact Hw |].
    apply Forall_app. split; [exact Hpending |].
    constructor; [exact Hresume | constructor].
Qed.

Lemma Forall_remove_nth {A : Type} (Q : A -> Prop) (i : nat) (l : list A) :
  Forall Q l -> Forall Q (remove_nth i l).
Proof.
  revert i. induction l as [|a l IH]; intros i Hl; [destruct i; constructor |].
  inversion Hl as [|? ? Ha Hl']; subst.
  destruct i as [|i]; cbn; [exact Hl' |].
  constructor; [exact Ha | apply IH; exact Hl'].
Qed.

Lemma step_kept (s s' : Session V B) (e : Event V) :
  kept P s -> step view listener s e = Some s' -> kept P s'.
Proof.
  intros [Hw Hpending] Hstep.
  destruct e as [c | field change | i ok]; cbn [step] in Hstep.
  - destruct (enabled c (view (world s))) eqn:Hen; [| discriminate].
    injection Hstep as <-.
    apply suspend_kept; [apply listeners_keep; assumption | exact Hpending].
  - destruct (enabled (Field field) (view (world s))); [| discriminate].
    injection Hstep as <-.
    split; [apply edits_keep; exact Hw | exact Hpending].
  - destruct (nth_error (inflight s) i) as [resume|] eqn:Hnth; [| discriminate].
    injection Hstep as <-.
    apply suspend_kept.
    + apply nth_error_In in Hnth.
      rewrite Forall_forall in Hpending. apply (Hpending resume Hnth). exact Hw.
    + apply Forall_remove_nth. exact Hpending.
Qed.

Lemma steps_kept (es : list (Event V)) :
  forall s s', kept P s -> steps view listener s es = Some s' -> P (world s').
Proof.
  induction es as [|e es IH]; intros s s' Hs Hsteps; cbn [steps] in Hsteps.
  - injection Hsteps as <-. apply Hs.
  - destruct (step view listener s e) as [s1|] eqn:Hstep; [| discriminate].
    apply (IH s1 s'); [| exact Hsteps].
    exact (step_kept s s1 e Hs Hstep).
Qed.

End SessionInvariant.

(** ** What the schemas let through *)

Lemma string_min_1_passes (s : string) : Zod.string_min 1 s = [] -> (s =? "") = false.
Proof. destruct s; [discriminate | reflexivity]. Qed.

Lemma product_formSchema_sound StringToNumber v d :
  ProductForm.formSchema StringToNumber v = inr d ->
  product_body_ok d = true /\
  d = ProductForm.mkValues (ProductForm.name v) (ProductForm.images v)
        (Js.Number StringToNumber (ProductForm.price v))
        (ProductForm.categoryId v) (ProductForm.colorId v) (ProductForm.sizeId v)
        (ProductForm.isFeatured v) (ProductForm.isArchived v).
Proof.
  unfold ProductForm.formSchema.
  destruct (ProductForm.formSchema_issues StringToNumber v) eqn:Hissues; [| discriminate].
  intro H. injection H as <-. split; [| reflexivity].
  pose proof (product_name_errors StringToNumber v) as Hn.
  pose proof (product_categoryId_errors StringToNumber v) as Hc.
  pose proof (product_colorId_errors StringToNumber v) as Hk.
  pose proof (product_sizeId_errors StringToNumber v) as Hs.
  pose proof (product_price_errors StringToNumber v) as Hp.
  rewrite Hissues in Hn, Hc, Hk, Hs, Hp. cbn in Hn, Hc, Hk, Hs, Hp.
  symmetry in Hn, Hc, Hk, Hs, Hp.
  apply string_min_1_passes in Hn, Hc, Hk, Hs.
  apply number_min_1_accepts in Hp.
  unfold product_body_ok.
  cbn [ProductForm.name ProductForm.price ProductForm.categoryId ProductForm.colorId
       ProductForm.sizeId].
  now rewrite Hn, Hc, Hk, Hs, Hp.
Qed.

Lemma category_formSchema_sound v d :
  CategoryForm.formSchema v = inr d -> category_body_ok d = true /\ d = v.
Proof.
  unfold CategoryForm.formSchema, CategoryForm.formSchema_issues.
  destruct (Zod.string_min 1 (CategoryForm.name v)) eqn:Hn; [| discriminate].
  destruct (Zod.string_min 1 (CategoryForm.billboardId v)) eqn:Hb; [| discriminate].
  cbn. intro H. injection H as <-.
  apply string_min_1_passes in Hn, Hb.
  unfold category_body_ok. cbn [CategoryForm.name CategoryForm.billboardId].
  rewrite Hn, Hb. split; [reflexivity | now destruct v].
Qed.

Lemma eqb_false_neq (s : string) : (s =? "") = false -> s <> "".
Proof. intros H ->. discriminate H. Qed.

(** What the product schema returns: either a non-empty list of issues,
    which is the list of all issues of the values, or data that satisfies
    every constraint and that, written back into the form, parses to itself
    again. *)
Theorem product_schema_is_sound_and_stable
    (StringToNumber : string -> Js.number)
    (v : ProductForm.ProductFormValues Js.value) :
  match ProductForm.formSchema StringToNumber v with
  | inl issues =>
      issues <> [] /\ issues = ProductForm.formSchema_issues StringToNumber v
  | inr d =>
      ProductForm.formSchema_issues StringToNumber v = [] /\
      product_body_ok d = true /\
      ProductForm.formSchema StringToNumber (product_data_as_values d) = inr d
  end.
Proof.
  destruct (ProductForm.formSchema StringToNumber v) as [issues | d] eqn:Hparse.
  - unfold ProductForm.formSchema in Hparse.
    destruct (ProductForm.formSchema_issues StringToNumber v); [discriminate |].
    injection Hparse as <-. split; [discriminate | reflexivity].
  - split.
    { unfold ProductForm.formSchema in Hparse.
      destruct (ProductForm.formSchema_issues StringToNumber v); [reflexivity | discriminate]. }
    destruct (product_formSchema_sound StringToNumber v d Hparse) as [Hok _].
    split; [exact Hok |].
    unfold product_body_ok in Hok.
    repeat (apply andb_prop in Hok; destruct Hok as [Hok ?]).
    rewrite product_formSchema_accepts;
      cbn [product_data_as_values ProductForm.name ProductForm.images ProductForm.price
           ProductForm.categoryId ProductForm.colorId ProductForm.sizeId
           ProductForm.isFeatured ProductForm.isArchived Js.Number];
      try (apply eqb_false_neq; now apply negb_true_iff);
      try assumption.
    now destruct d.
Qed.

(** ** The requests of a form, over a whole session *)

Lemma requests_snoc_http {B : Type} (t : list (Effect B)) (r : Request B) :
  requests (t ++ [Http r]) = (requests t ++ [r])%list.
Proof. rewrite requests_app. reflexivity. Qed.

Lemma requests_after_settle {B : Type} (t : list (Effect B)) (ok : bool)
    (href success failure : string) :
  requests (t ++ if ok
                 then [RouterRefresh; RouterPush href; ToastSuccess success]
                 else [ToastError failure])
  = requests t.
Proof. rewrite requests_app. destruct ok; cbn; apply app_nil_r. Qed.

Lemma forallb_snoc {A : Type} (f : A -> bool) (l : list A) (a : A) :
  forallb f l = true -> f a = true -> forallb f (l ++ [a]) = true.
Proof.
  intros Hl Ha. rewrite forallb_app, Hl. cbn. now rewrite Ha.
Qed.

Section ProductFormRequests.

Variable StringToNumber : string -> Js.number.
Variable initialData : option Prisma.Product.t.
Variable params : ProductForm.Params.

Local Notation "'expected'" :=
  (only_expected_requests (V := ProductForm.ProductFormValues Js.value) product_body_ok
     ("/api/" ++ ProductForm.storeId params ++ "/products")
     ("/api/" ++ ProductForm.storeId params ++ "/products/" ++ ProductForm.productId params)
     initialData).

Lemma ProductForm_listeners_keep c w :
  expected w -> enabled c (ProductForm.view initialData w) = true ->
  holds_along expected (ProductForm.listener StringToNumber initialData params c w).
Proof.
  intros [Hopen Hreq] Hen.
  destruct c as [f | | | |]; cbn [ProductForm.listener].
  - (* a field *) split; assumption.
  - (* submit *)
    unfold ProductForm.submit, handleSubmit.
    destruct (ProductForm.formSchema StringToNumber (values w)) as [issues | data] eqn:Hparse.
    + split; assumption.
    + apply product_formSchema_sound in Hparse. destruct Hparse as [Hok _].
      cbn [bind setErrors then_].
      destruct (ProductForm_onSubmit_start initialData params data
                  (mkWorld (values w) [] (open w) (loading w) (trace w)))
        as [resume [Hrun Hresume]].
      cbv zeta in Hrun, Hresume. rewrite Hrun. cbn [holds_along]. split.
      * split; [exact Hopen |].
        cbn [trace]. rewrite requests_snoc_http. apply forallb_snoc; [exact Hreq |].
        unfold form_request_ok. destruct initialData; cbn [method body url];
          now rewrite String.eqb_refl, Hok.
      * intros ok w' [Hopen' Hreq']. rewrite Hresume. cbn [holds_along].
        split; [exact Hopen' |].
        cbn [trace]. rewrite requests_after_settle. exact Hreq'.
  - (* the delete button: rendered in edit mode only *)
    destruct initialData.
    + split; [exact I | exact Hreq].
    + unfold ProductForm.view in Hen. destruct (open w), (loading w); discriminate Hen.
  - (* the confirm button: rendered when the modal is open *)
    destruct initialData as [p|].
    + destruct (ProductForm_onDelete_start params w) as [resume [Hrun Hresume]].
      cbv zeta in Hrun, Hresume. rewrite Hrun. cbn [holds_along]. split.
      * split; [exact I |].
        cbn [trace]. rewrite requests_snoc_http. apply forallb_snoc; [exact Hreq |].
        unfold form_request_ok. cbn [method body url]. apply String.eqb_refl.
      * intros ok w' [Hopen' Hreq']. rewrite Hresume. cbn [holds_along].
        split; [exact I |].
        cbn [trace]. rewrite requests_after_settle. exact Hreq'.
    + unfold ProductForm.view in Hen. rewrite Hopen in Hen.
      destruct (loading w); discriminate Hen.
  - (* cancel *)
    split; [destruct initialData; [exact I | reflexivity] | exact Hreq].
Qed.

Lemma ProductForm_edits_keep w v :
  expected w -> expected (mkWorld v (errors w) (open w) (loading w) (trace w)).
Proof. intros [Hopen Hreq]. split; assumption. Qed.

Lemma ProductForm_session_requests v es s :
  steps (ProductForm.view initialData)
        (ProductForm.listener StringToNumber initialData params)
        (mkSession (mount v) []) es = Some s ->
  expected (world s).
Proof.
  apply (steps_kept _ _ expected ProductForm_listeners_keep ProductForm_edits_keep).
  split; [| constructor].
  split; [destruct initialData; [exact I | reflexivity] | reflexivity].
Qed.

End ProductFormRequests.

Section CategoryFormRequests.

Variable initialData : option Prisma.Category.t.
Variable params : CategoryForm.Params.

Local Notation "'expected'" :=
  (only_expected_requests (V := CategoryForm.CategoryFormValues) category_body_ok
     ("/api/" ++ CategoryForm.storeId params ++ "/categories")
     ("/api/" ++ CategoryForm.storeId params ++ "/categories/"
        ++ CategoryForm.categoryId params)
     initialData).

Lemma CategoryForm_listeners_keep c w :
  expected w -> enabled c (CategoryForm.view initialData w) = true ->
  holds_along expected (CategoryForm.listener initialData params c w).
Proof.
  intros [Hopen Hreq] Hen.
  destruct c as [f | | | |]; cbn [CategoryForm.listener].
  - split; assumption.
  - unfold CategoryForm.submit, handleSubmit.
    destruct (CategoryForm.formSchema (values w)) as [issues | data] eqn:Hparse.
    + split; assumption.
    + apply category_formSchema_sound in Hparse. destruct Hparse as [Hok _].
      cbn [bind setErrors then_].
      destruct (CategoryForm_onSubmit_start initialData params data
                  (mkWorld (values w) [] (open w) (loading w) (trace w)))
        as [resume [Hrun Hresume]].
      cbv zeta in Hrun, Hresume. rewrite Hrun. cbn [holds_along]. split.
      * split; [exact Hopen |].
        cbn [trace]. rewrite requests_snoc_http. apply forallb_snoc; [exact Hreq |].
        unfold form_request_ok. destruct initialData; cbn [method body url];
          now rewrite String.eqb_refl, Hok.
      * intros ok w' [Hopen' Hreq']. rewrite Hresume. cbn [holds_along].
        split; [exact Hopen' |].
        cbn [trace]. rewrite requests_after_settle. exact Hreq'.
  - destruct initialData.
    + split; [exact I | exact Hreq].
    + unfold CategoryForm.view in Hen. destruct (open w), (loading w); discriminate Hen.
  - destruct initialData as [c|].
    + destruct (CategoryForm_onDelete_start params w) as [resume [Hrun Hresume]].
      cbv zeta in Hrun, Hresume. rewrite Hrun. cbn [holds_along]. split.
      * split; [exact I |].
        cbn [trace]. rewrite requests_snoc_http. apply forallb_snoc; [exact Hreq |].
        unfold form_request_ok. cbn [method body url]. apply String.eqb_refl.
      * intros ok w' [Hopen' Hreq']. rewrite Hresume. cbn [holds_along].
        split; [exact I |].
        cbn [trace]. rewrite requests_after_settle. exact Hreq'.
    + unfold CategoryForm.view in Hen. rewrite Hopen in Hen.
      destruct (loading w); discriminate Hen.
  - split; [destruct initialData; [exact I | reflexivity] | exact Hreq].
Qed.

Lemma CategoryForm_edits_keep w v :
  expected w -> expected (mkWorld v (errors w) (open w) (loading w) (trace w)).
Proof. intros [Hopen Hreq]. split; assumption. Qed.

Lemma CategoryForm_session_requests v es s :
  steps (CategoryForm.view initialData) (CategoryForm.listener initialData params)
        (mkSession (mount v) []) es = Some s ->
  expected (world s).
Proof.
  apply (steps_kept _ _ expected CategoryForm_listeners_keep CategoryForm_edits_keep).
  split; [| constructor].
  split; [destruct initialData; [exact I | reflexivity] | reflexivity].
Qed.

End CategoryFormRequests.

(** Whatever the user does with a form and however its requests settle,
    every request the form has sent is one of its mode: a create form sends
    only POSTs to the collection, an edit form only PATCHes and body-less
    DELETEs to the record; every body sent satisfies all constraints of the
    schema; and a create form never has its confirmation modal open. *)
Theorem forms_send_only_expected_requests
    (StringToNumber : string -> Js.number)
    (pinit : option Prisma.Product.t) (pparams : ProductForm.Params)
    (pv : ProductForm.ProductFormValues Js.value)
    (pes : list (Event (ProductForm.ProductFormValues Js.value)))
    (cinit : option Prisma.Category.t) (cparams : CategoryForm.Params)
    (cv : CategoryForm.CategoryFormValues)
    (ces : list (Event CategoryForm.CategoryFormValues)) :
  match steps (ProductForm.view pinit)
              (ProductForm.listener StringToNumber pinit pparams)
              (mkSession (mount pv) []) pes with
  | Some s =>
      only_expected_requests product_body_ok
        ("/api/" ++ ProductForm.storeId pparams ++ "/products")
        ("/api/" ++ ProductForm.storeId pparams ++ "/products/"
           ++ ProductForm.productId pparams)
        pinit (world s)
  | None => True
  end /\
  match steps (CategoryForm.view cinit) (CategoryForm.listener cinit cparams)
              (mkSession (mount cv) []) ces with
  | Some s =>
      only_expected_requests category_body_ok
        ("/api/" ++ CategoryForm.storeId cparams ++ "/categories")
        ("/api/" ++ CategoryForm.storeId cparams ++ "/categories/"
           ++ CategoryForm.categoryId cparams)
        cinit (world s)
  | None => True
  end.
Proof.
  split.
  - destruct (steps _ _ _ pes) as [s|] eqn:Hsteps; [| exact I].
    exact (ProductForm_session_requests StringToNumber pinit pparams pv pes s Hsteps).
  - destruct (steps _ _ _ ces) as [s|] eqn:Hsteps; [| exact I].
    exact (CategoryForm_session_requests cinit cparams cv ces s Hsteps).
Qed.

(** ** What can be operated while a request is pending *)

Ltac controls_while_loading :=
  cbn [enabled existsb kind_eqb kind disabled negb app AlertModal
       ProductForm.render CategoryForm.render];
  rewrite ?andb_false_r, ?andb_true_r, ?orb_false_r; cbn [orb].

Lemma ProductForm_controls_while_loading initialData w :
  loading w = true ->
  enabled SubmitButton (ProductForm.view initialData w) = false /\
  enabled DeleteButton (ProductForm.view initialData w) = false /\
  enabled ConfirmButton (ProductForm.view initialData w) = false /\
  forall f, enabled (Field f) (ProductForm.view initialData w)
            = (("isFeatured" =? f) || ("isArchived" =? f))%bool.
Proof.
  intro Hload. unfold ProductForm.view. rewrite Hload.
  destruct initialData, (open w); repeat split; try reflexivity;
    intro f; controls_while_loading; reflexivity.
Qed.

Lemma CategoryForm_controls_while_loading initialData w :
  loading w = true ->
  enabled SubmitButton (CategoryForm.view initialData w) = false /\
  enabled DeleteButton (CategoryForm.view initialData w) = false /\
  enabled ConfirmButton (CategoryForm.view initialData w) = false /\
  forall f, enabled (Field f) (CategoryForm.view initialData w) = false.
Proof.
  intro Hload. unfold CategoryForm.view. rewrite Hload.
  destruct initialData, (open w); repeat split; try reflexivity;
    intro f; controls_while_loading; reflexivity.
Qed.

(** While a request of a form is in flight, a click on submit, on the delete
    button or on the confirm button of the modal does nothing, and no field
    can be edited, except the two checkboxes of the product form. *)
Theorem forms_are_frozen_while_a_request_is_pending
    (StringToNumber : string -> Js.number)
    (pinit : option Prisma.Product.t) (pparams : ProductForm.Params)
    (pv : ProductForm.ProductFormValues Js.value)
    (pes : list (Event (ProductForm.ProductFormValues Js.value)))
    (cinit : option Prisma.Category.t) (cparams : CategoryForm.Params)
    (cv : CategoryForm.CategoryFormValues)
    (ces : list (Event CategoryForm.CategoryFormValues)) :
  match steps (ProductForm.view pinit)
              (ProductForm.listener StringToNumber pinit pparams)
              (mkSession (mount pv) []) pes with
  | Some s =>
      let next := step (ProductForm.view pinit)
                    (ProductForm.listener StringToNumber pinit pparams) s in
      inflight s = [] \/
      (next (Click SubmitButton) = None /\
       next (Click DeleteButton) = None /\
       next (Click ConfirmButton) = None /\
       forall f change,
         next (Edit f change) = None \/ f = "isFeatured" \/ f = "isArchived")
  | None => True
  end /\
  match steps (CategoryForm.view cinit) (CategoryForm.listener cinit cparams)
              (mkSession (mount cv) []) ces with
  | Some s =>
      let next := step (CategoryForm.view cinit) (CategoryForm.listener cinit cparams) s in
      inflight s = [] \/
      (next (Click SubmitButton) = None /\
       next (Click DeleteButton) = None /\
       next (Click ConfirmButton) = None /\
       forall f change, next (Edit f change) = None)
  | None => True
  end.
Proof.
  split.
  - destruct (steps _ _ _ pes) as [s|] eqn:Hsteps; [| exact I].
    assert (Hs : single_flight s).
    { eapply (steps_single_flight _ _
                (ProductForm_quiet_while_loading StringToNumber pinit pparams)
                (ProductForm_at_most_one_request StringToNumber pinit pparams));
        [| exact Hsteps].
      left. split; reflexivity. }
    destruct Hs as [[Hnil _] | [resume [_ [_ Hload]]]]; [left; exact Hnil | right].
    destruct (ProductForm_controls_while_loading pinit (world s) Hload)
      as [Hsubmit [Hdelete [Hconfirm Hfield]]].
    cbv zeta. cbn [step]. rewrite Hsubmit, Hdelete, Hconfirm.
    repeat split. intros f change. rewrite Hfield.
    destruct ("isFeatured" =? f) eqn:E1; [right; left; symmetry; now apply String.eqb_eq |].
    destruct ("isArchived" =? f) eqn:E2; [right; right; symmetry; now apply String.eqb_eq |].
    left. reflexivity.
  - destruct (steps _ _ _ ces) as [s|] eqn:Hsteps; [| exact I].
    assert (Hs : single_flight s).
    { eapply (steps_single_flight _ _
                (CategoryForm_quiet_while_loading cinit cparams)
                (CategoryForm_at_most_one_request cinit cparams));
        [| exact Hsteps].
      left. split; reflexivity. }
    destruct Hs as [[Hnil _] | [resume [_ [_ Hload]]]]; [left; exact Hnil | right].
    destruct (CategoryForm_controls_while_loading cinit (world s) Hload)
      as [Hsubmit [Hdelete [Hconfirm Hfield]]].
    cbv zeta. cbn [step]. rewrite Hsubmit, Hdelete, Hconfirm.
    repeat split. intros f change. now rewrite Hfield.
Qed.

(** ** The field errors after a submit *)

(** Once a submit has run to its end, whatever the server answered, the
    field errors of the form are exactly the issues of the values that were
    submitted: earlier errors do not linger, and a valid submission leaves no
    error. *)
Theorem errors_after_submit_are_the_current_issues
    (StringToNumber : string -> Js.number)
    (pinit : option Prisma.Product.t) (pparams : ProductForm.Params)
    (pserver : @Server (ProductForm.ProductFormValues Js.number))
    (pw : World (ProductForm.ProductFormValues Js.value) (ProductForm.ProductFormValues Js.number))
    (cinit : option Prisma.Category.t) (cparams : CategoryForm.Params)
    (cserver : @Server CategoryForm.CategoryFormValues)
    (cw : World CategoryForm.CategoryFormValues CategoryForm.CategoryFormValues) :
  errors (snd (run pserver (ProductForm.submit StringToNumber pinit pparams pw)))
    = ProductForm.formSchema_issues StringToNumber (values pw) /\
  errors (snd (run cserver (CategoryForm.submit cinit cparams cw)))
    = CategoryForm.formSchema_issues (values cw).
Proof.
  split.
  - unfold ProductForm.submit, handleSubmit, ProductForm.formSchema.
    destruct (ProductForm.formSchema_issues StringToNumber (values pw)) as [|i issues].
    + cbn [bind setErrors then_]. rewrite ProductForm_onSubmit_run. reflexivity.
    + reflexivity.
  - unfold CategoryForm.submit, handleSubmit, CategoryForm.formSchema.
    destruct (CategoryForm.formSchema_issues (values cw)) as [|i issues].
    + cbn [bind setErrors then_]. rewrite CategoryForm_onSubmit_run. reflexivity.
    + reflexivity.
Qed.

(** ** Saving an edit form that was not touched *)

(** An edit form submitted as it was pre-populated: when the record
    satisfies the schema, the one request sent is a PATCH to the record whose
    body carries the record's own fields; when the record's price, read back
    as a number, is below 1 or not a number, nothing is sent. Likewise for a
    category record with a name and a billboard. *)
Theorem untouched_edit_form_sends_the_record
    (StringToNumber : string -> Js.number)
    (DecimalToString : Q -> string) (parseFloat : string -> Js.number)
    (p : Prisma.Product.t) (pparams : ProductForm.Params)
    (pserver : @Server (ProductForm.ProductFormValues Js.number))
    (c : Prisma.Category.t) (cparams : CategoryForm.Params)
    (cserver : @Server CategoryForm.CategoryFormValues) :
  let price := parseFloat (DecimalToString (Prisma.Product.price p)) in
  let pw' := snd (run pserver
                    (ProductForm.submit StringToNumber (Some p) pparams
                       (mount (ProductForm.defaultValues DecimalToString parseFloat
                                 (Some p))))) in
  let cw' := snd (run cserver
                    (CategoryForm.submit (Some c) cparams
                       (mount (CategoryForm.defaultValues (Some c))))) in
  ( Prisma.Product.name p <> "" -> Prisma.Product.categoryId p <> "" ->
    Prisma.Product.colorId p <> "" -> Prisma.Product.sizeId p <> "" ->
    Js.le (Js.Finite 1) price = true ->
    requests (trace pw')
    = [ mkRequest PATCH
          ("/api/" ++ ProductForm.storeId pparams ++ "/products/"
             ++ ProductForm.productId pparams)
          (Some (ProductForm.mkValues (Prisma.Product.name p) (Prisma.Product.images p)
                   price
                   (Prisma.Product.categoryId p) (Prisma.Product.colorId p)
                   (Prisma.Product.sizeId p)
                   (Some (Prisma.Product.isFeatured p))
                   (Some (Prisma.Product.isArchived p)))) ] ) /\
  ( Js.le (Js.Finite 1) price = false -> trace pw' = [] ) /\
  ( Prisma.Category.name c <> "" -> Prisma.Category.billboardId c <> "" ->
    requests (trace cw')
    = [ mkRequest PATCH
          ("/api/" ++ CategoryForm.storeId cparams ++ "/categories/"
             ++ CategoryForm.categoryId cparams)
          (Some (CategoryForm.mkValues (Prisma.Category.name c)
                   (Prisma.Category.billboardId c))) ] ).
Proof.
  cbv zeta. split; [| split].
  - intros Hn Hc Hk Hs Hp.
    unfold ProductForm.submit, handleSubmit. cbn [mount values].
    rewrite product_formSchema_accepts by (cbn; assumption).
    cbn [bind setErrors then_ ProductForm.defaultValues ProductForm.name
         ProductForm.images ProductForm.price ProductForm.categoryId ProductForm.colorId
         ProductForm.sizeId ProductForm.isFeatured ProductForm.isArchived Js.Number
         values errors open loading trace].
    rewrite ProductForm_onSubmit_run. cbn [snd trace app].
    match goal with |- context [pserver ?q] => destruct (pserver q) end; reflexivity.
  - intro Hp.
    unfold ProductForm.submit, handleSubmit. cbn [mount values].
    rewrite product_formSchema_rejects; [reflexivity |].
    apply product_empty_field_has_issue. do 5 right. exact Hp.
  - intros Hn Hb.
    unfold CategoryForm.submit, handleSubmit. cbn [mount values].
    rewrite category_formSchema_accepts by (cbn; assumption).
    cbn [bind setErrors then_ values errors open loading trace].
    rewrite CategoryForm_onSubmit_run. cbn [snd trace app CategoryForm.defaultValues].
    match goal with |- context [cserver ?q] => destruct (cserver q) end; reflexivity.
Qed.

Lemma untouched_edit_form_sends_the_record_witness :
  let p := Prisma.Product.mk "p1" "Paracetamol" (15000 # 1) "cat1" "size1" "col1"
             [Prisma.mkImage "https://img/a.png"] true false "1 Januari 2024"
             "2 Januari 2024" in
  let c := Prisma.Category.mk "c1" "Vitamins" "bb1" "1 Januari 2024" "2 Januari 2024" in
  requests (trace (snd (run (fun _ => true)
    (ProductForm.submit (fun _ => Js.NaN) (Some p) (ProductForm.mkParams "s1" "p1")
       (mount (ProductForm.defaultValues (fun _ => "15000") (fun _ => Js.Finite 15000)
                 (Some p)))))))
  = [ mkRequest PATCH "/api/s1/products/p1"
        (Some (ProductForm.mkValues "Paracetamol" [Prisma.mkImage "https://img/a.png"]
                 (Js.Finite 15000) "cat1" "col1" "size1" (Some true) (Some false))) ] /\
  requests (trace (snd (run (fun _ => true)
    (CategoryForm.submit (Some c) (CategoryForm.mkParams "s1" "c1")
       (mount (CategoryForm.defaultValues (Some c)))))))
  = [ mkRequest PATCH "/api/s1/categories/c1"
        (Some (CategoryForm.mkValues "Vitamins" "bb1")) ].
Proof.
  cbv zeta.
  destruct (untouched_edit_form_sends_the_record
              (fun _ => Js.NaN) (fun _ => "15000") (fun _ => Js.Finite 15000)
              (Prisma.Product.mk "p1" "Paracetamol" (15000 # 1) "cat1" "size1" "col1"
                 [Prisma.mkImage "https://img/a.png"] true false "1 Januari 2024"
                 "2 Januari 2024")
              (ProductForm.mkParams "s1" "p1") (fun _ => true)
              (Prisma.Category.mk "c1" "Vitamins" "bb1" "1 Januari 2024" "2 Januari 2024")
              (CategoryForm.mkParams "s1" "c1") (fun _ => true))
    as [Hp [_ Hc]].
  split.
  - apply Hp; solve [ discriminate | reflexivity ].
  - apply Hc; discriminate.
Defined.

(** ** Which menu entry is highlighted *)

Lemma eqb_under_store_prefix (storeId a b : string) :
  ("/" ++ storeId ++ a =? "/" ++ storeId ++ b) = (a =? b).
Proof.
  destruct (a =? b) eqn:E.
  - apply String.eqb_eq in E. subst. apply String.eqb_refl.
  - apply String.eqb_neq. apply String.eqb_neq in E.
    intro H. apply E. cbn [append] in H. injection H as H.
    exact (append_cancel_l _ _ _ H).
Qed.

Lemma eqb_store_root (storeId a : string) :
  ("/" ++ storeId ++ a =? "/" ++ storeId) = (a =? "").
Proof.
  rewrite <- (append_empty_r storeId) at 2. apply eqb_under_store_prefix.
Qed.

Lemma active_hrefs (pathname : string) (rs : list MainNav.Route) :
  Forall (fun r => MainNav.active r = (pathname =? MainNav.href r)) rs ->
  NoDup (map MainNav.href rs) ->
  map MainNav.href (filter MainNav.active rs)
  = if existsb (String.eqb pathname) (map MainNav.href rs) then [pathname] else [].
Proof.
  induction rs as [|r rs IH]; intros Hact Hnd; [reflexivity |].
  inversion Hact as [|? ? Hr Hrs]; subst.
  inversion Hnd as [|? ? Hnotin Hnd']; subst.
  cbn [filter map existsb]. rewrite <- Hr.
  destruct (MainNav.active r) eqn:Ha.
  - symmetry in Hr. apply String.eqb_eq in Hr.
    cbn [map orb]. rewrite <- Hr.
    rewrite (no_active_off_menu pathname rs Hrs) by (rewrite Hr; exact Hnotin).
    reflexivity.
  - cbn [orb]. apply IH; assumption.
Qed.

(** The menu highlights an entry exactly when the current path is one of the
    eight menu paths, and then it highlights that entry and no other: the
    hrefs of the active entries are the path alone, or nothing. On the eight
    menu paths of a store the highlighted labels are, in order, Overview,
    Papan Iklan, Kategori, Bentuk Obat, Tipe Obat, Produk, Pesanan and
    Setting. *)
Theorem menu_highlights_the_entry_of_the_current_path (pathname storeId : string) :
  map MainNav.href (filter MainNav.active (MainNav.routes pathname storeId))
    = (if existsb (String.eqb pathname)
            (map MainNav.href (MainNav.routes pathname storeId))
       then [pathname] else []) /\
  map (fun suffix =>
         map MainNav.label
           (filter MainNav.active (MainNav.routes ("/" ++ storeId ++ suffix) storeId)))
      MainNav.route_suffixes
    = [ ["Overview"]; ["Papan Iklan"]; ["Kategori"]; ["Bentuk Obat"]; ["Tipe Obat"];
        ["Produk"]; ["Pesanan"]; ["Setting"] ].
Proof.
  split.
  - apply active_hrefs; [apply active_is_equality | apply hrefs_NoDup].
  - unfold MainNav.route_suffixes, MainNav.routes. cbn [map].
    rewrite !eqb_under_store_prefix, !eqb_store_root. reflexivity.
Qed.

(** ** Where the handlers lead *)

(** After a successful submit or delete of a form the user is taken to a
    path on which the menu highlights the form's own resource (Produk,
    Kategori); the menu item "Perbarui" of a colour row leads to a path on
    which no menu entry is highlighted. *)
Theorem navigation_targets_and_the_menu
    (pinit : option Prisma.Product.t) (pparams : ProductForm.Params)
    (pdata : ProductForm.ProductFormValues Js.number)
    (pv : ProductForm.ProductFormValues Js.value)
    (cinit : option Prisma.Category.t) (cparams : CategoryForm.Params)
    (cdata cv : CategoryForm.CategoryFormValues)
    (data : CellAction.ColorColumn) (aparams : CellAction.Params) :
  let highlighted storeId :=
    map (fun path =>
           map MainNav.label (filter MainNav.active (MainNav.routes path storeId))) in
  highlighted (ProductForm.storeId pparams)
    (navigations (trace (snd (run (fun _ => true)
       (ProductForm.onSubmit pinit pparams pdata (mount pv))))))
    = [ ["Produk"] ] /\
  highlighted (ProductForm.storeId pparams)
    (navigations (trace (snd (run (fun _ => true)
       (ProductForm.onDelete pparams (mount pv))))))
    = [ ["Produk"] ] /\
  highlighted (CategoryForm.storeId cparams)
    (navigations (trace (snd (run (fun _ => true)
       (CategoryForm.onSubmit cinit cparams cdata (mount cv))))))
    = [ ["Kategori"] ] /\
  highlighted (CategoryForm.storeId cparams)
    (navigations (trace (snd (run (fun _ => true)
       (CategoryForm.onDelete cparams (mount cv))))))
    = [ ["Kategori"] ] /\
  highlighted (CellAction.storeId aparams)
    (navigations (trace (snd (run (fun _ => true)
       (CellAction.onUpdateClick data aparams (mount tt))))))
    = [ [] ].
Proof.
  cbv zeta.
  rewrite ProductForm_onSubmit_run, ProductForm_onDelete_run,
    CategoryForm_onSubmit_run, CategoryForm_onDelete_run.
  unfold CellAction.onUpdateClick, router_push, emit.
  cbn [run snd trace mount app navigations flat_map map].
  unfold MainNav.routes.
  repeat split; rewrite !eqb_under_store_prefix, !eqb_store_root; reflexivity.
Qed.

(** ** The columns and the keys of their rows *)

(** In the order, product and size tables every column that has an
    [accessorKey] reads a key its row has, whatever the row. In the category
    table one column does not: the column headed "Papan Iklan" is keyed
    [billboard], which no category row has, so the value it reads is
    undefined for every row; what it shows is the row's [billboardLabel],
    through its own cell renderer. In every table the columns have pairwise
    distinct identifiers. *)
Theorem columns_and_the_keys_of_their_rows
    (o : Orders.OrderColumn) (c : Categories.CategoryColumn)
    (p : Products.ProductColumn) (s : Sizes.SizeColumn) :
  filter (fun col => Table.reads_missing_key Orders.properties col o) Orders.columns = [] /\
  filter (fun col => Table.reads_missing_key Products.properties col p) Products.columns
    = [] /\
  filter (fun col => Table.reads_missing_key Sizes.properties col s) Sizes.columns = [] /\
  (let missing :=
     filter (fun col => Table.reads_missing_key Categories.properties col c)
       Categories.columns in
   map Table.header missing = [Some "Papan Iklan"] /\
   map (fun col => Table.accessor_value Categories.properties col c) missing = [None] /\
   map (fun col => Table.render_cell Categories.properties col c) missing
     = [Table.Text (Categories.billboardLabel c)]) /\
  NoDup (map Table.column_id Orders.columns) /\
  NoDup (map Table.column_id Categories.columns) /\
  NoDup (map Table.column_id Products.columns) /\
  NoDup (map Table.column_id Sizes.columns).
Proof.
  repeat split; try reflexivity;
    cbn; repeat (constructor; [cbn [In]; intuition discriminate |]); constructor.
Qed.
